(** * SDSS notebook helpers: a shallow embedding

    Source: [04_HowTos/FileService/How_to_use_SDSS_Data.ipynb].

    The notebook computes with numpy arrays of Python floats.  A Python float
    is an IEEE 754 binary64 number, which is Rocq's primitive [float], and
    the arrays are taken with numpy's default floating type, float64, so
    every arithmetic operation and comparison below is the one the code
    performs, rounding included.  Array arithmetic is numpy's element-wise
    arithmetic with broadcasting; a Python exception is an explicit [Raises]
    outcome; Python integers are [Z].  The transcendental functions of numpy
    ([log], [arcsinh], [power]) and the external collaborators (remote
    storage, FITS decoding, bz2 decompression) are parameters. *)

From Stdlib Require Import Floats ZArith Ascii DecimalString DecimalN.
From stdpp Require Import gmap strings list.

Set Warnings "-inexact-float".

(** ** Python exceptions and outcomes *)

Inductive exn : Type :=
  | ValueError          (* numpy: operands could not be broadcast together *)
  | IndexError          (* index out of bounds / list index out of range *)
  | KeyError (key : string)
  | TypeError           (* 'NoneType' object is not subscriptable *)
  | RemoteError (msg : string).   (* any failure of an external collaborator *)

Inductive outcome (A : Type) : Type :=
  | Returns (a : A)
  | Raises (e : exn).
Arguments Returns {A} a.
Arguments Raises {A} e.

#[global] Instance outcome_ret : MRet outcome := @Returns.
#[global] Instance outcome_bind : MBind outcome := fun A B f m =>
  match m with
  | Returns a => f a
  | Raises e => Raises e
  end.

(** ** numpy values

    An operand of an array expression is a scalar (a Python number) or a
    one-dimensional array. *)

Inductive nd (A : Type) : Type :=
  | Scalar (x : A)
  | Array (l : list A).
Arguments Scalar {A} x.
Arguments Array {A} l.

(** numpy's broadcasting rule for a binary element-wise operation: equal
    lengths combine position by position, a length-1 array is stretched, a
    scalar combines with every element, anything else is a [ValueError]. *)
Definition broadcast {A B C} (f : A -> B -> C) (a : nd A) (b : nd B)
  : outcome (nd C) :=
  match a, b with
  | Scalar x, Scalar y => Returns (Scalar (f x y))
  | Scalar x, Array l => Returns (Array (f x <$> l))
  | Array l, Scalar y => Returns (Array ((fun x => f x y) <$> l))
  | Array l, Array k =>
      if Nat.eqb (length l) (length k) then Returns (Array (zip_with f l k))
      else match l, k with
           | [x], _ => Returns (Array (f x <$> k))
           | _, [y] => Returns (Array ((fun x => f x y) <$> l))
           | _, _ => Raises ValueError
           end
  end.

(** A binary operator of an expression: Python evaluates the left operand,
    then the right one, then applies the operation. *)
Definition np_binop {A B C} (f : A -> B -> C)
    (x : outcome (nd A)) (y : outcome (nd B)) : outcome (nd C) :=
  a ← x; b ← y; broadcast f a b.

Definition np_unop {A B} (f : A -> B) (x : outcome (nd A)) : outcome (nd B) :=
  a ← x;
  mret (match a with
        | Scalar v => Scalar (f v)
        | Array l => Array (f <$> l)
        end).

(** A Python literal. *)
Definition lit {A} (x : A) : outcome (nd A) := Returns (Scalar x).

Definition gtb (x y : float) : bool := PrimFloat.ltb y x.

Declare Scope np_scope.
Delimit Scope np_scope with np.
Notation "x +. y" := (np_binop PrimFloat.add x y)
  (at level 50, left associativity) : np_scope.
Notation "x -. y" := (np_binop PrimFloat.sub x y)
  (at level 50, left associativity) : np_scope.
Notation "x *. y" := (np_binop PrimFloat.mul x y)
  (at level 40, left associativity) : np_scope.
Notation "x /. y" := (np_binop PrimFloat.div x y)
  (at level 40, left associativity) : np_scope.
Notation "x <. y" := (np_binop PrimFloat.ltb x y)
  (at level 70, no associativity) : np_scope.
Notation "x >. y" := (np_binop gtb x y)
  (at level 70, no associativity) : np_scope.
Notation "x &. y" := (np_binop andb x y)
  (at level 77, left associativity) : np_scope.
Notation "# x" := (lit x%float) (at level 9, x at level 9, format "# x") : np_scope.
Definition np_abs : outcome (nd float) -> outcome (nd float) :=
  np_unop PrimFloat.abs.

(** ** Structured arrays

    The notebook reads its tables only through [data['name']] and
    [data.shape]; [ndtable] is exactly that interface.  A numpy structured
    array is a sequence of records: every column has the length of the
    array ([recarray_of]). *)

Record ndtable : Type := {
  shape : nat;
  getitem : string -> outcome (nd float)
}.
Notation "d .[ k ]" := (getitem d k) (at level 1, format "d .[ k ]") : np_scope.

Definition column {R A} (p : R -> A) (rows : list R) : outcome (nd A) :=
  Returns (Array (p <$> rows)).

Definition recarray_of {R} (fields : string -> option (R -> float))
    (rows : list R) : ndtable :=
  {| shape := length rows;
     getitem := fun name =>
       match fields name with
       | Some p => column p rows
       | None => Raises ValueError      (* numpy: no field of name ... *)
       end |}.

(** One row of the photometric query of the notebook, with the columns the
    cuts read (the other selected columns are never used). *)
Record CatalogRow : Type := {
  modelmag_g : float;  modelmag_r : float;  modelmag_i : float;
  modelmag_z : float;
  cmodelmag_r : float; cmodelmag_i : float;
  psfmag_r : float;    psfmag_i : float;    psfmag_z : float;
  fiber2mag_i : float;
  devrad_i : float
}.

Definition photo_fields (name : string) : option (CatalogRow -> float) :=
  if String.eqb name "modelmag_g" then Some modelmag_g
  else if String.eqb name "modelmag_r" then Some modelmag_r
  else if String.eqb name "modelmag_i" then Some modelmag_i
  else if String.eqb name "modelmag_z" then Some modelmag_z
  else if String.eqb name "cmodelmag_r" then Some cmodelmag_r
  else if String.eqb name "cmodelmag_i" then Some cmodelmag_i
  else if String.eqb name "psfmag_r" then Some psfmag_r
  else if String.eqb name "psfmag_i" then Some psfmag_i
  else if String.eqb name "psfmag_z" then Some psfmag_z
  else if String.eqb name "fiber2mag_i" then Some fiber2mag_i
  else if String.eqb name "devrad_i" then Some devrad_i
  else None.

(** The table returned by the photometric query. *)
Definition photo_table : list CatalogRow -> ndtable := recarray_of photo_fields.

Record AuxiliaryColor : Type := {
  c_par : float;
  c_perp : float;
  d_perp : float
}.

Definition aux_fields (name : string) : option (AuxiliaryColor -> float) :=
  if String.eqb name "c_par" then Some c_par
  else if String.eqb name "c_perp" then Some c_perp
  else if String.eqb name "d_perp" then Some d_perp
  else None.

Definition aux_table : list AuxiliaryColor -> ndtable := recarray_of aux_fields.

(** [np.zeros(shape, dtype=[('c_par', dt), ('c_perp', dt), ('d_perp', dt)])] *)
Definition np_zeros (n : nat) : list AuxiliaryColor :=
  replicate n {| c_par := 0; c_perp := 0; d_perp := 0 |}.

Definition set_c_par (v : float) (a : AuxiliaryColor) : AuxiliaryColor :=
  {| c_par := v; c_perp := c_perp a; d_perp := d_perp a |}.
Definition set_c_perp (v : float) (a : AuxiliaryColor) : AuxiliaryColor :=
  {| c_par := c_par a; c_perp := v; d_perp := d_perp a |}.
Definition set_d_perp (v : float) (a : AuxiliaryColor) : AuxiliaryColor :=
  {| c_par := c_par a; c_perp := c_perp a; d_perp := v |}.

(** [aux['name'] = v]: the value is broadcast to the shape of [aux]. *)
Definition setitem {R A} (upd : A -> R -> R) (aux : list R) (v : nd A)
  : outcome (list R) :=
  match v with
  | Scalar x => Returns (upd x <$> aux)
  | Array l =>
      if Nat.eqb (length l) (length aux) then Returns (zip_with upd l aux)
      else match l with
           | [x] => Returns (upd x <$> aux)
           | _ => Raises ValueError
           end
  end.

Open Scope np_scope.

(** ** Color-index calculator *)

Definition auxilliary_colors (data : ndtable) : outcome (list AuxiliaryColor) :=
  _ ← data.["modelmag_r"];                 (* dt = data['modelmag_r'].dtype *)
  let aux := np_zeros (shape data) in
  v ← (#0.7 *. (data.["modelmag_g"] -. data.["modelmag_r"]) +.
       #1.2 *. (data.["modelmag_r"] -. data.["modelmag_i"] -. #0.18));
  aux ← setitem set_c_par aux v;
  v ← ((data.["modelmag_r"] -. data.["modelmag_i"]) -.
       (data.["modelmag_g"] -. data.["modelmag_r"]) /. #4.0 -. #0.18);
  aux ← setitem set_c_perp aux v;
  v ← ((data.["modelmag_r"] -. data.["modelmag_i"]) -.
       (data.["modelmag_g"] -. data.["modelmag_r"]) /. #8.0);
  aux ← setitem set_d_perp aux v;
  mret aux.

(** ** Target-selection cuts (the cells after the photometric query) *)

(** [rdev_i = result['devrad_i']/0.396  # convert back to pixels] *)
Definition rdev_i_of (result : ndtable) : outcome (nd float) :=
  result.["devrad_i"] /. #0.396.

Definition LOWZ (result auxcolor : ndtable) : outcome (nd bool) :=
  (result.["cmodelmag_r"] <. (#13.5 +. auxcolor.["c_par"] /. #0.3)) &.
  (np_abs auxcolor.["c_perp"] <. #0.2) &.
  (result.["cmodelmag_r"] >. #16.0) &. (result.["cmodelmag_r"] <. #19.6) &.
  ((result.["psfmag_r"] -. result.["cmodelmag_r"]) >. #0.3).

Definition CMASS (result auxcolor : ndtable) (rdev_i : nd float)
  : outcome (nd bool) :=
  (result.["cmodelmag_i"] <. (#19.86 +. #1.6 *. (auxcolor.["d_perp"] -. #0.8))) &.
  (result.["cmodelmag_i"] >. #17.5) &. (result.["cmodelmag_i"] <. #19.9) &.
  (auxcolor.["d_perp"] >. #0.55) &.
  ((result.["psfmag_i"] -. result.["modelmag_i"]) >.
     (#0.2 +. #0.2 *. (#20.0 -. result.["modelmag_i"]))) &.
  ((result.["psfmag_z"] -. result.["modelmag_z"]) >.
     (#9.125 -. #0.46 *. result.["modelmag_z"])) &.
  ((result.["modelmag_r"] -. result.["modelmag_i"]) <. #2) &.
  (result.["fiber2mag_i"] <. #21.5) &.
  (Returns rdev_i <. #20).

(** The two cells together: the derived columns, then both masks. *)
Definition photometric_cuts (result : ndtable)
  : outcome (nd bool * nd bool) :=
  rdev_i ← rdev_i_of result;
  auxcolor ← auxilliary_colors result;
  lowz ← LOWZ result (aux_table auxcolor);
  cmass ← CMASS result (aux_table auxcolor) rdev_i;
  mret (lowz, cmass).

(** ** Decoded FITS files and remote paths *)

Definition bytes : Type := list Byte.byte.

(** The header cards the notebook reads, as astropy decodes them ([None]: the
    card is absent and [hdr['...']] raises [KeyError]). *)
Record Header : Type := {
  COEFF0 : option float;
  COEFF1 : option float;
  NAXIS1 : option Z
}.

(** A two-dimensional data block, row by row; [None] when the block has no
    data ([hdu.data is None]). *)
Definition image : Type := option (list (list float)).

Record HDU : Type := {
  header : Header;
  data : image
}.

Definition card {A} (name : string) (c : option A) : outcome A :=
  match c with
  | Some v => Returns v
  | None => Raises (KeyError name)
  end.

(** [hdulist[k]] for a literal [k >= 0]. *)
Definition hdulist_get (hdulist : list HDU) (k : nat) : outcome HDU :=
  match hdulist !! k with
  | Some h => Returns h
  | None => Raises IndexError
  end.

(** [data[idx, :]]: numpy accepts [-n <= idx < n] on an array of [n] rows, a
    negative index counting from the end. *)
Definition getrow (d : image) (idx : Z) : outcome (list float) :=
  match d with
  | None => Raises TypeError
  | Some rows =>
      let n := Z.of_nat (length rows) in
      let k := if (idx <? 0)%Z then (idx + n)%Z else idx in
      if ((0 <=? k)%Z && (k <? n)%Z)%bool
      then match rows !! Z.to_nat k with
           | Some r => Returns r
           | None => Raises IndexError
           end
      else Raises IndexError
  end.

Definition float_of_nat (k : nat) : float :=
  PrimFloat.of_uint63 (Uint63.of_Z (Z.of_nat k)).

(** [np.arange(n, dtype=float)] *)
Definition np_arange (n : Z) : list float :=
  float_of_nat <$> seq 0 (Z.to_nat n).

(** Python's [format(z, '0{width}d')]; [width = 0] is a plain [{:d}]. *)
Definition digits (n : N) : string := NilZero.string_of_uint (N.to_uint n).

Fixpoint zeros (n : nat) : string :=
  match n with
  | O => ""
  | S m => "0" +:+ zeros m
  end.

Definition zfill (width : nat) (s : string) : string :=
  zeros (width - String.length s) +:+ s.

Definition fmt_d (width : nat) (z : Z) : string :=
  if (z <? 0)%Z then "-" +:+ zfill (width - 1) (digits (Z.abs_N z))
  else zfill width (digits (Z.abs_N z)).

Definition spectrum_path (sas run2d : string) (plate mjd : Z) : string :=
  sas +:+ "sdss/spectro/redux/" +:+ run2d +:+ "/" +:+ fmt_d 4 plate +:+
  "/spPlate-" +:+ fmt_d 4 plate +:+ "-" +:+ fmt_d 5 mjd +:+ ".fits".

Definition frame_path (sas : string) (run camcol : Z) (band : string)
    (field : Z) : string :=
  sas +:+ "eboss/photoObj/frames/301/" +:+ fmt_d 0 run +:+ "/" +:+
  fmt_d 0 camcol +:+ "/frame-" +:+ band +:+ "-" +:+ fmt_d 6 run +:+ "-" +:+
  fmt_d 0 camcol +:+ "-" +:+ fmt_d 4 field +:+ ".fits.bz2".

Definition default_run2d : string := "v5_10_0".
Definition default_sas : string := "sdss_dr14://".

(** ** The process: the frame cache and the storage collaborator

    [extract_frame_cache] is the module-level dictionary of the notebook;
    [requests] logs, in order, every path handed to the storage collaborator
    ([sc.get]). *)

Record world : Type := {
  extract_frame_cache : gmap string image;
  requests : list string
}.

Definition fresh_process : world :=
  {| extract_frame_cache := ∅; requests := [] |}.

(** A notebook function: it runs in a world, returns or raises, and leaves a
    world behind. *)
Definition proc (A : Type) : Type := world -> outcome A * world.

#[global] Instance proc_ret : MRet proc := fun A a w => (Returns a, w).
#[global] Instance proc_bind : MBind proc := fun A B f m w =>
  match m w with
  | (Returns a, w') => f a w'
  | (Raises e, w') => (Raises e, w')
  end.

Definition lift {A} (o : outcome A) : proc A := fun w => (o, w).

Definition cache_contains (key : string) : proc bool :=
  fun w => (Returns (bool_decide (is_Some (extract_frame_cache w !! key))), w).

Definition cache_store (key : string) (v : image) : proc unit :=
  fun w => (Returns tt,
            {| extract_frame_cache := <[key := v]> (extract_frame_cache w);
               requests := requests w |}).

Definition cache_lookup (key : string) : proc image :=
  fun w => (card key (extract_frame_cache w !! key), w).

(** An element-wise operation between a two-dimensional array and scalars. *)
Definition image_map (f : float -> float) (img : list (list float))
  : list (list float) :=
  (fun row : list float => f <$> row) <$> img.

(** The softening parameters of [asinh_image]. *)
Definition softening : gmap string float :=
  {[ "u" := 1.4e-10%float; "g" := 0.9e-10%float; "r" := 1.2e-10%float;
     "i" := 1.8e-10%float; "z" := 7.4e-10%float ]}.

Section Reconstructor.

(** numpy's transcendental functions on binary64 numbers. *)
Variable np_log : float -> float.
Variable np_arcsinh : float -> float.
Variable np_power : float -> float -> float.

(** The external collaborators: [storage n path] is what [sc.get] answers
    to the request number [n] of the process when asked for [path];
    [fits_open] and [bz2_read] decode and decompress a byte stream. *)
Variable storage : nat -> string -> outcome bytes.
Variable fits_open : bytes -> outcome (list HDU).
Variable bz2_read : bytes -> outcome bytes.

Definition sc_get (path : string) : proc bytes :=
  fun w => (storage (length (requests w)) path,
            {| extract_frame_cache := extract_frame_cache w;
               requests := requests w ++ [path] |}).

(** *** Spectral reconstructor *)

(** The body of [extract_spectrum] once the file is decoded: the [with]
    block, then the wavelength solution. *)
Definition read_spectrum (hdulist : list HDU) (fiber : Z)
  : outcome (list float * list float * list float * list float) :=
  hdu0 ← hdulist_get hdulist 0;
  let hdr := header hdu0 in
  hdu0 ← hdulist_get hdulist 0;
  flux ← getrow (data hdu0) (fiber - 1);
  hdu1 ← hdulist_get hdulist 1;
  ivar ← getrow (data hdu1) (fiber - 1);
  hdu6 ← hdulist_get hdulist 6;
  sky ← getrow (data hdu6) (fiber - 1);
  coeff0 ← card "COEFF0" (COEFF0 hdr);
  coeff1 ← card "COEFF1" (COEFF1 hdr);
  naxis1 ← card "NAXIS1" (NAXIS1 hdr);
  let loglam := (fun x => coeff0 + coeff1 * x)%float <$> np_arange naxis1 in
  let wavelength := np_power 10.0 <$> loglam in
  mret (wavelength, flux, ivar, sky).

(** The [release] argument of the source is never read and is left out. *)
Definition extract_spectrum (plate mjd fiber : Z) (run2d sas : string)
  : proc (list float * list float * list float * list float) :=
  let vopath := spectrum_path sas run2d plate mjd in
  raw ← sc_get vopath;
  hdulist ← lift (fits_open raw);
  lift (read_spectrum hdulist fiber).

(** *** Frame/image reconstructor *)

Definition asinh_image (img : list (list float)) (band : string)
  : outcome (list (list float)) :=
  let C := (-2.5 / np_log 10.0)%float in
  let b := softening in
  let scaled := image_map (fun x => x * 1.0e-9)%float img in
  b1 ← card band (b !! band);
  let ratio := image_map (fun x => x / (2.0 * b1))%float scaled in
  let asinh := image_map np_arcsinh ratio in
  b2 ← card band (b !! band);
  mret (image_map (fun x => C * (x + np_log b2))%float asinh).

Definition extract_frame (run camcol field : Z) (band sas : string)
  : proc image :=
  let fm := frame_path sas run camcol band field in
  cached ← cache_contains fm;
  _ ← (if cached : bool then mret tt
       else
         raw ← sc_get fm;
         cf ← lift (bz2_read raw);
         hdulist ← lift (fits_open cf);
         hdu0 ← lift (hdulist_get hdulist 0);
         cache_store fm (data hdu0));
  cache_lookup fm.

(** *** The life of a process

    A process is a sequence of calls of the two reconstructors; [run_calls]
    is the world after them, whatever each call returned or raised. *)

Inductive call : Type :=
  | FrameCall (run camcol field : Z) (band sas : string)
  | SpectrumCall (plate mjd fiber : Z) (run2d sas : string).

Definition perform (c : call) (w : world) : world :=
  match c with
  | FrameCall run camcol field band sas =>
      snd (extract_frame run camcol field band sas w)
  | SpectrumCall plate mjd fiber run2d sas =>
      snd (extract_spectrum plate mjd fiber run2d sas w)
  end.

Fixpoint run_calls (cs : list call) (w : world) : world :=
  match cs with
  | [] => w
  | c :: cs' => run_calls cs' (perform c w)
  end.

End Reconstructor.

(** ** The specification's per-row formulas

    These follow the words of the specification (sections 4.1 and 4.2), one
    catalog row at a time; the theorems below compare them with the array
    code above. *)

Definition spec_c_par (g r i : float) : float :=
  (0.7 * (g - r) + 1.2 * (r - i - 0.18))%float.
Definition spec_c_perp (g r i : float) : float :=
  ((r - i) - (g - r) / 4 - 0.18)%float.
Definition spec_d_perp (g r i : float) : float :=
  ((r - i) - (g - r) / 8)%float.

Definition spec_aux (row : CatalogRow) : AuxiliaryColor :=
  {| c_par := spec_c_par (modelmag_g row) (modelmag_r row) (modelmag_i row);
     c_perp := spec_c_perp (modelmag_g row) (modelmag_r row) (modelmag_i row);
     d_perp := spec_d_perp (modelmag_g row) (modelmag_r row) (modelmag_i row) |}.

(** [x < y] and [x > y] on binary64 numbers, as propositions. *)
Definition flt (x y : float) : Prop := PrimFloat.ltb x y = true.
Definition fgt (x y : float) : Prop := PrimFloat.ltb y x = true.

(** [r_dev_i(pixels) = devrad_i / 0.396] *)
Definition spec_r_dev_i (row : CatalogRow) : float :=
  (devrad_i row / 0.396)%float.

Definition spec_LOWZ (row : CatalogRow) (aux : AuxiliaryColor) : Prop :=
  flt (cmodelmag_r row) (13.5 + c_par aux / 0.3)
  /\ flt (abs (c_perp aux)) 0.2
  /\ (flt 16.0 (cmodelmag_r row) /\ flt (cmodelmag_r row) 19.6)
  /\ fgt (psfmag_r row - cmodelmag_r row) 0.3.

Definition spec_CMASS (row : CatalogRow) (aux : AuxiliaryColor) : Prop :=
  flt (cmodelmag_i row) (19.86 + 1.6 * (d_perp aux - 0.8))
  /\ (flt 17.5 (cmodelmag_i row) /\ flt (cmodelmag_i row) 19.9)
  /\ fgt (d_perp aux) 0.55
  /\ fgt (psfmag_i row - modelmag_i row) (0.2 + 0.2 * (20.0 - modelmag_i row))
  /\ fgt (psfmag_z row - modelmag_z row) (9.125 - 0.46 * modelmag_z row)
  /\ flt (modelmag_r row - modelmag_i row) 2
  /\ flt (fiber2mag_i row) 21.5
  /\ flt (spec_r_dev_i row) 20.

(** ** The masks one row at a time

    What the array expressions of [LOWZ] and [CMASS] compute at one position
    of their operands. *)

Definition LOWZ_row (row : CatalogRow) (aux : AuxiliaryColor) : bool :=
  (cmodelmag_r row <? 13.5 + c_par aux / 0.3)%float
  && (abs (c_perp aux) <? 0.2)%float
  && gtb (cmodelmag_r row) 16.0 && (cmodelmag_r row <? 19.6)%float
  && gtb (psfmag_r row - cmodelmag_r row) 0.3.

Definition CMASS_row (row : CatalogRow) (aux : AuxiliaryColor) (rdev : float)
  : bool :=
  (cmodelmag_i row <? 19.86 + 1.6 * (d_perp aux - 0.8))%float
  && gtb (cmodelmag_i row) 17.5 && (cmodelmag_i row <? 19.9)%float
  && gtb (d_perp aux) 0.55
  && gtb (psfmag_i row - modelmag_i row) (0.2 + 0.2 * (20.0 - modelmag_i row))
  && gtb (psfmag_z row - modelmag_z row) (9.125 - 0.46 * modelmag_z row)
  && (modelmag_r row - modelmag_i row <? 2)%float
  && (fiber2mag_i row <? 21.5)%float
  && (rdev <? 20)%float.

(** A row that passes every CMASS cut, with a profile radius just inside the
    20-pixel limit, and the same row on the limit. *)
Definition cmass_row_791 : CatalogRow :=
  {| modelmag_g := 21.2; modelmag_r := 19.5; modelmag_i := 18.6;
     modelmag_z := 18.2; cmodelmag_r := 19.4; cmodelmag_i := 18.5;
     psfmag_r := 20.4; psfmag_i := 19.6; psfmag_z := 19.3;
     fiber2mag_i := 20.9; devrad_i := 7.91 |}.

Definition cmass_row_792 : CatalogRow :=
  {| modelmag_g := 21.2; modelmag_r := 19.5; modelmag_i := 18.6;
     modelmag_z := 18.2; cmodelmag_r := 19.4; cmodelmag_i := 18.5;
     psfmag_r := 20.4; psfmag_i := 19.6; psfmag_z := 19.3;
     fiber2mag_i := 20.9; devrad_i := 7.92 |}.

(** ** Single precision

    A catalog may store its columns as float32.  numpy then divides and
    compares in binary32, the Python literals being rounded to binary32
    first; [binary32 x] is the binary32 number nearest to the binary64 [x],
    as a [spec_float] of precision 24. *)
Definition binary32 (x : float) : spec_float :=
  match Prim2SF x with
  | S754_finite s m e => binary_normalize 24 128 (cond_Zopp s (Zpos m)) e s
  | sf => sf
  end.

Definition div32 : spec_float -> spec_float -> spec_float := SFdiv 24 128.

(** ** Bare column arrays

    A table-like object that answers [data['modelmag_g']], [data['modelmag_r']]
    and [data['modelmag_i']] with three independent arrays and [data.shape]
    with [n]: the only way to hand [auxilliary_colors] magnitude arrays of
    different lengths (a structured array cannot hold them). *)
Definition columns_table (n : nat) (g r i : list float) : ndtable :=
  {| shape := n;
     getitem := fun name =>
       if String.eqb name "modelmag_g" then Returns (Array g)
       else if String.eqb name "modelmag_r" then Returns (Array r)
       else if String.eqb name "modelmag_i" then Returns (Array i)
       else Raises (KeyError name) |}.

(** An expression that can only fail the way array arithmetic fails. *)
Definition only_ValueError {A} (x : outcome A) : Prop :=
  forall e, x = Raises e -> e = ValueError.

(** Two lengths that numpy can combine element-wise. *)
Definition broadcastable (n m : nat) : Prop := n = m \/ n = 1 \/ m = 1.

(** ** Well-formed plate files

    An spPlate file as the specification assumes it: data blocks 0, 1 and 6
    are present, each an array of [nrows] rows of [N] samples, and block 0
    carries COEFF0, COEFF1 and NAXIS1 = N. *)
Definition block_shape (h : HDU) (nrows N : nat) : Prop :=
  exists rows : list (list float),
    data h = Some rows /\ length rows = nrows
    /\ Forall (fun r => length r = N) rows.

Definition well_formed_plate (hdulist : list HDU) (nrows N : nat)
    (c0 c1 : float) : Prop :=
  exists hdu0 hdu1 hdu6 : HDU,
    hdulist !! 0 = Some hdu0 /\ hdulist !! 1 = Some hdu1
    /\ hdulist !! 6 = Some hdu6
    /\ block_shape hdu0 nrows N /\ block_shape hdu1 nrows N
    /\ block_shape hdu6 nrows N
    /\ COEFF0 (header hdu0) = Some c0 /\ COEFF1 (header hdu0) = Some c1
    /\ NAXIS1 (header hdu0) = Some (Z.of_nat N).

(** The documented table of softening parameters. *)
Definition softening_table : list (string * float) :=
  [("u", 1.4e-10%float); ("g", 0.9e-10%float); ("r", 1.2e-10%float);
   ("i", 1.8e-10%float); ("z", 7.4e-10%float)].

(** ** Sample files and collaborators

    Small decoded files and stub collaborators, used to run the functions on
    concrete inputs. *)

Definition plate_header (n : Z) : Header :=
  {| COEFF0 := Some 3.5%float; COEFF1 := Some 0.0001%float; NAXIS1 := Some n |}.

Definition block (n : Z) (rows : list (list float)) : HDU :=
  {| header := plate_header n; data := Some rows |}.

Definition flux_rows : list (list float) :=
  [[1.5; 2.5; 3.5; 4.5]; [5.5; 6.5; 7.5; 8.5]]%float.
Definition ivar_rows : list (list float) :=
  [[0.1; 0.2; 0.3; 0.4]; [0.5; 0.6; 0.7; 0.8]]%float.
Definition sky_rows : list (list float) :=
  [[10; 20; 30; 40]; [50; 60; 70; 80]]%float.
Definition short_rows : list (list float) :=
  [[0.1; 0.2; 0.3]; [0.5; 0.6; 0.7]]%float.

(** Two fibers of four samples; blocks 2 to 5 are not read. *)
Definition sample_plate : list HDU :=
  [block 4 flux_rows; block 4 ivar_rows; block 4 sky_rows; block 4 sky_rows;
   block 4 sky_rows; block 4 sky_rows; block 4 sky_rows].

(** The same file with an inverse-variance block of three samples per row
    (and its own NAXIS1 = 3). *)
Definition ragged_plate : list HDU :=
  [block 4 flux_rows; block 3 short_rows; block 4 sky_rows; block 4 sky_rows;
   block 4 sky_rows; block 4 sky_rows; block 4 sky_rows].

(** The same file with NAXIS1 = 5 in the header of block 0. *)
Definition wrong_naxis_plate : list HDU :=
  [block 5 flux_rows; block 4 ivar_rows; block 4 sky_rows; block 4 sky_rows;
   block 4 sky_rows; block 4 sky_rows; block 4 sky_rows].

Definition sample_frame : list HDU :=
  [{| header := {| COEFF0 := None; COEFF1 := None; NAXIS1 := Some 2%Z |};
      data := Some [[0; 1]; [2; 3]]%float |}].

(** Stub collaborators: a store that serves every path, one that serves none,
    a decoder that yields a given file, and an identity decompressor. *)
Definition online_storage : nat -> string -> outcome bytes :=
  fun _ _ => Returns [].
Definition offline_storage : nat -> string -> outcome bytes :=
  fun _ path => Raises (RemoteError path).
Definition decodes_to (hdulist : list HDU) : bytes -> outcome (list HDU) :=
  fun _ => Returns hdulist.
Definition bz2_identity : bytes -> outcome bytes := Returns.

(** First-order stand-ins for the transcendental functions (ln x near 1,
    asinh x near 0, and a power that only keeps the exponent); the theorems
    hold for every choice of these functions. *)
Definition stub_log (x : float) : float := (x - 1)%float.
Definition stub_arcsinh (x : float) : float := x.
Definition stub_power (b e : float) : float := e.

(** ** Counting and plotting the selected rows

    The cells after the cuts print [LOWZ.sum()] and [CMASS.sum()] and plot
    the columns indexed by the masks. *)

(** [mask.sum()]: the number of true entries. *)
Definition np_sum (m : nd bool) : nat :=
  match m with
  | Scalar b => Nat.b2n b
  | Array l => sum_list (Nat.b2n <$> l)
  end.

Fixpoint compress {A} (l : list A) (mask : list bool) : list A :=
  match l, mask with
  | x :: l', b :: mask' =>
      if b then x :: compress l' mask' else compress l' mask'
  | _, _ => []
  end.

(** [x[mask]] for a boolean array [mask]: numpy requires an array of the
    same length, and rejects anything else with [IndexError]. *)
Definition np_getmask {A} (x : outcome (nd A)) (mask : list bool)
  : outcome (nd A) :=
  a ← x;
  match a with
  | Array l =>
      if Nat.eqb (length l) (length mask) then Returns (Array (compress l mask))
      else Raises IndexError
  | Scalar _ => Raises IndexError
  end.

(** One call of [ax.plot(x, y, label=...)]: the data of the line drawn.
    matplotlib takes both arguments as arrays of at least one dimension and
    raises [ValueError] when their lengths differ.  The styling arguments
    are constants and are left out. *)
Record Line : Type := {
  xdata : list float;
  ydata : list float;
  label : string
}.

Definition atleast_1d {A} (v : nd A) : list A :=
  match v with
  | Scalar x => [x]
  | Array l => l
  end.

Definition ax_plot (x y : nd float) (lbl : string) : outcome Line :=
  if Nat.eqb (length (atleast_1d x)) (length (atleast_1d y))
  then Returns {| xdata := atleast_1d x; ydata := atleast_1d y; label := lbl |}
  else Raises ValueError.

(** The color-magnitude cell: all rows, then the LOWZ and the CMASS rows,
    g - r against r. *)
Definition color_magnitude_plot (result : ndtable) (LOWZ CMASS : list bool)
  : outcome (list Line) :=
  x ← result.["modelmag_g"] -. result.["modelmag_r"];
  y ← result.["modelmag_r"];
  p1 ← ax_plot x y "model";
  x ← np_getmask result.["modelmag_g"] LOWZ -. np_getmask result.["modelmag_r"] LOWZ;
  y ← np_getmask result.["modelmag_r"] LOWZ;
  p2 ← ax_plot x y "LOWZ";
  x ← np_getmask result.["modelmag_g"] CMASS -. np_getmask result.["modelmag_r"] CMASS;
  y ← np_getmask result.["modelmag_r"] CMASS;
  p3 ← ax_plot x y "CMASS";
  mret [p1; p2; p3].

(** The color-color cell: g - r against r - i. *)
Definition color_color_plot (result : ndtable) (LOWZ CMASS : list bool)
  : outcome (list Line) :=
  x ← result.["modelmag_g"] -. result.["modelmag_r"];
  y ← result.["modelmag_r"] -. result.["modelmag_i"];
  p1 ← ax_plot x y "model";
  x ← np_getmask result.["modelmag_g"] LOWZ -. np_getmask result.["modelmag_r"] LOWZ;
  y ← np_getmask result.["modelmag_r"] LOWZ -. np_getmask result.["modelmag_i"] LOWZ;
  p2 ← ax_plot x y "LOWZ";
  x ← np_getmask result.["modelmag_g"] CMASS -. np_getmask result.["modelmag_r"] CMASS;
  y ← np_getmask result.["modelmag_r"] CMASS -. np_getmask result.["modelmag_i"] CMASS;
  p3 ← ax_plot x y "CMASS";
  mret [p1; p2; p3].

(** ** Plotting a spectrum and displaying a frame *)

(** What [plot_spectrum] draws: the lines and the title (the axis labels and
    the legend are constants). *)
Record SpectrumPlot : Type := {
  lines : list Line;
  title : string
}.

(** What [display_frame] shows: the array handed to [plt.imshow], the color
    map, the color limits and the title. *)
Record FrameDisplay : Type := {
  shown : list (list float);
  cmap : string;
  clim : float * float;
  frame_title : string
}.

(** [plt.imshow(image, ...)]: an image without data cannot be drawn. *)
Definition imshow (img : image) : outcome (list (list float)) :=
  match img with
  | Some a => Returns a
  | None => Raises TypeError
  end.

Section Displays.

Variable np_log : float -> float.
Variable np_arcsinh : float -> float.
Variable np_power : float -> float -> float.
Variable storage : nat -> string -> outcome bytes.
Variable fits_open : bytes -> outcome (list HDU).
Variable bz2_read : bytes -> outcome bytes.

(** The keyword arguments of the source are passed on to
    [extract_spectrum]; the figure is what the call leaves on the screen. *)
Definition plot_spectrum (plate mjd fiber : Z) (showsky : bool)
    (run2d sas : string) : proc SpectrumPlot :=
  spectrum ← extract_spectrum np_power storage fits_open
               plate mjd fiber run2d sas;
  let '(wavelength, flux, ivar, sky) := spectrum in
  p0 ← lift (ax_plot (Array wavelength) (Array flux) "OBJECT");
  drawn ← (if showsky
           then p1 ← lift (ax_plot (Array wavelength) (Array sky) "SKY");
                mret [p0; p1]
           else mret [p0]);
  mret {| lines := drawn;
          title := fmt_d 4 plate +:+ "-" +:+ fmt_d 5 mjd +:+ "-" +:+
                   fmt_d 4 fiber |}.

(** [asinh_image] on what [extract_frame] returned: a frame without data
    fails at [image*1.0e-9], before the band is looked up. *)
Definition asinh_frame (img : image) (band : string) : outcome image :=
  match img with
  | None => Raises TypeError
  | Some a => a' ← asinh_image np_log np_arcsinh a band; mret (Some a')
  end.

Definition display_frame (run camcol field : Z) (band : string)
    (asinh invert : bool) (sas : string) : proc FrameDisplay :=
  let color_map := if invert then "gray" else "gray_r" in
  img ← extract_frame storage fits_open bz2_read run camcol field band sas;
  scaled ← (if asinh
            then a ← lift (asinh_frame img band); mret (a, (26, 18)%float)
            else mret (img, (0.0, 1.0)%float));
  im ← lift (imshow (fst scaled));
  mret {| shown := im; cmap := color_map; clim := snd scaled;
          frame_title := "frame-" +:+ band +:+ "-" +:+ fmt_d 6 run +:+ "-" +:+
                         fmt_d 0 camcol +:+ "-" +:+ fmt_d 4 field +:+ ".fits" |}.

End Displays.

(** Files that cannot be read: one with five data blocks only, one whose
    block 0 lacks the COEFF1 card. *)
Definition five_block_plate : list HDU :=
  [block 4 flux_rows; block 4 ivar_rows; block 4 sky_rows; block 4 sky_rows;
   block 4 sky_rows].

Definition no_coeff1_plate : list HDU :=
  [{| header := {| COEFF0 := Some 3.5%float; COEFF1 := None;
                   NAXIS1 := Some 4%Z |};
      data := Some flux_rows |};
   block 4 ivar_rows; block 4 sky_rows; block 4 sky_rows;
   block 4 sky_rows; block 4 sky_rows; block 4 sky_rows].

(** A frame file whose primary block carries no data. *)
Definition dataless_frame : list HDU :=
  [{| header := {| COEFF0 := None; COEFF1 := None; NAXIS1 := None |};
      data := None |}].

(** Two catalog rows: one passes the CMASS cuts, one holds a NaN. *)
Definition nan_row : CatalogRow :=
  {| modelmag_g := nan; modelmag_r := 19.5; modelmag_i := 18.6;
     modelmag_z := 18.2; cmodelmag_r := 19.4; cmodelmag_i := 18.5;
     psfmag_r := 20.4; psfmag_i := 19.6; psfmag_z := 19.3;
     fiber2mag_i := 20.9; devrad_i := 7.91 |}.

(** ** Reading formatted integers back

    The characters [fmt_d] can print, and the number a zero-padded decimal
    string denotes; they serve to tell the paths of different files
    apart. *)

Definition is_num_char (a : Ascii.ascii) : bool :=
  match a with
  | "0" | "1" | "2" | "3" | "4" | "5" | "6" | "7" | "8" | "9" | "-" => true
  | _ => false
  end%char.

Fixpoint numeric (s : string) : bool :=
  match s with
  | EmptyString => true
  | String a s' => is_num_char a && numeric s'
  end.

Fixpoint occurs (c : Ascii.ascii) (s : string) : Prop :=
  match s with
  | EmptyString => False
  | String a s' => a = c \/ occurs c s'
  end.

Definition parse_nat (s : string) : N :=
  match NilEmpty.uint_of_string s with
  | Some d => N.of_uint d
  | None => 0%N
  end.

(** ** The array layer on the columns of one table *)

Section Columns.
Context {R : Type} (rows : list R).

Lemma binop_col_col {A B C} (f : A -> B -> C) (p : R -> A) (q : R -> B) :
  np_binop f (column p rows) (column q rows)
  = column (fun r => f (p r) (q r)) rows.
Proof.
  unfold np_binop, column; cbn.
  rewrite !length_fmap, Nat.eqb_refl.
  do 2 f_equal.
  rewrite zip_with_fmap_l, zip_with_fmap_r.
  induction rows as [|r l IH]; cbn; [reflexivity | now rewrite IH].
Qed.

Lemma binop_lit_col {A B C} (f : A -> B -> C) (x : A) (q : R -> B) :
  np_binop f (lit x) (column q rows) = column (fun r => f x (q r)) rows.
Proof.
  unfold np_binop, column, lit; cbn. now rewrite <- list_fmap_compose.
Qed.

Lemma binop_col_lit {A B C} (f : A -> B -> C) (p : R -> A) (y : B) :
  np_binop f (column p rows) (lit y) = column (fun r => f (p r) y) rows.
Proof.
  unfold np_binop, column, lit; cbn. now rewrite <- list_fmap_compose.
Qed.

Lemma unop_col {A B} (f : A -> B) (p : R -> A) :
  np_unop f (column p rows) = column (fun r => f (p r)) rows.
Proof.
  unfold np_unop, column; cbn. now rewrite <- list_fmap_compose.
Qed.

Lemma setitem_col {S A} (upd : A -> S -> S) (a : R -> S) (h : R -> A) :
  setitem upd (a <$> rows) (Array (h <$> rows))
  = Returns ((fun r => upd (h r) (a r)) <$> rows).
Proof.
  unfold setitem. rewrite !length_fmap, Nat.eqb_refl. f_equal.
  rewrite zip_with_fmap_l, zip_with_fmap_r.
  induction rows as [|r l IH]; cbn; [reflexivity | now rewrite IH].
Qed.

Lemma np_zeros_rows :
  np_zeros (length rows)
  = (fun _ => {| c_par := 0; c_perp := 0; d_perp := 0 |}) <$> rows.
Proof.
  unfold np_zeros. induction rows as [|r l IH]; cbn; [reflexivity | now rewrite IH].
Qed.
End Columns.

Lemma bind_column {R A B} (p : R -> A) (rows : list R)
    (k : nd A -> outcome B) :
  (column p rows ≫= k) = k (Array (p <$> rows)).
Proof. reflexivity. Qed.

(** Rewriting an array expression over the columns of one table into a
    single row-wise column. *)
Ltac columns :=
  repeat match goal with
    | |- context [getitem (recarray_of ?fields ?rows) ?name] =>
        let p := eval hnf in (fields name) in
        lazymatch p with
        | Some ?q =>
            change (getitem (recarray_of fields rows) name) with (column q rows)
        end
    | |- context [shape (recarray_of ?fields ?rows)] =>
        change (shape (recarray_of fields rows)) with (length rows)
    end;
  repeat first
    [ rewrite binop_col_col | rewrite binop_lit_col | rewrite binop_col_lit
    | rewrite unop_col ].

Lemma column_fmap {R S A} (p : S -> A) (h : R -> S) (rows : list R) :
  column p (h <$> rows) = column (fun r => p (h r)) rows.
Proof. unfold column. now rewrite <- list_fmap_compose. Qed.

Lemma auxilliary_colors_rows (rows : list CatalogRow) :
  auxilliary_colors (photo_table rows) = Returns (spec_aux <$> rows).
Proof.
  unfold auxilliary_colors, photo_table.
  columns. rewrite np_zeros_rows.
  repeat (first [rewrite bind_column | rewrite setitem_col];
          cbn [mbind outcome_bind]).
  reflexivity.
Qed.

Lemma rdev_i_rows (rows : list CatalogRow) :
  rdev_i_of (photo_table rows) = column spec_r_dev_i rows.
Proof. unfold rdev_i_of, photo_table. columns. reflexivity. Qed.

Lemma LOWZ_rows (rows : list CatalogRow) :
  LOWZ (photo_table rows) (aux_table (spec_aux <$> rows))
  = column (fun row => LOWZ_row row (spec_aux row)) rows.
Proof.
  unfold LOWZ, photo_table, aux_table, np_abs.
  columns. rewrite !column_fmap. columns. reflexivity.
Qed.

Lemma CMASS_rows (rows : list CatalogRow) :
  CMASS (photo_table rows) (aux_table (spec_aux <$> rows))
        (Array (spec_r_dev_i <$> rows))
  = column (fun row => CMASS_row row (spec_aux row) (spec_r_dev_i row)) rows.
Proof.
  unfold CMASS, photo_table, aux_table.
  change (Returns (Array (spec_r_dev_i <$> rows)))
    with (column spec_r_dev_i rows).
  columns. rewrite !column_fmap. columns. reflexivity.
Qed.

Lemma photometric_cuts_rows (rows : list CatalogRow) :
  photometric_cuts (photo_table rows)
  = Returns (Array ((fun row => LOWZ_row row (spec_aux row)) <$> rows),
             Array ((fun row => CMASS_row row (spec_aux row) (spec_r_dev_i row))
                      <$> rows)).
Proof.
  unfold photometric_cuts.
  rewrite rdev_i_rows, bind_column, auxilliary_colors_rows.
  cbn [mbind outcome_bind].
  rewrite LOWZ_rows, bind_column, CMASS_rows, bind_column.
  reflexivity.
Qed.

Lemma LOWZ_row_spec (row : CatalogRow) (aux : AuxiliaryColor) :
  LOWZ_row row aux = true <-> spec_LOWZ row aux.
Proof.
  unfold LOWZ_row, spec_LOWZ, flt, fgt, gtb.
  rewrite !andb_true_iff. tauto.
Qed.

Lemma CMASS_row_spec (row : CatalogRow) (aux : AuxiliaryColor) :
  CMASS_row row aux (spec_r_dev_i row) = true <-> spec_CMASS row aux.
Proof.
  unfold CMASS_row, spec_CMASS, flt, fgt, gtb.
  rewrite !andb_true_iff. tauto.
Qed.

(** ** C1: the color-index calculator *)


(** ** C2, C3, C10: the target-selection masks *)



(** C10.  On a row with devrad_i = 7.92 the pixel radius devrad_i / 0.396 is
    exactly 20.0, so the cut r_dev_i < 20 is false and the CMASS mask of the
    row is false; on a row with devrad_i = 7.91 the cut is true. *)
Theorem C10_rdev_boundary (rows : list CatalogRow) :
  exists (rdev : list float) (lowz cmass : list bool),
    rdev_i_of (photo_table rows) = Returns (Array rdev)
    /\ photometric_cuts (photo_table rows) = Returns (Array lowz, Array cmass)
    /\ forall (k : nat) (row : CatalogRow),
         rows !! k = Some row ->
         (devrad_i row = 7.92%float ->
            rdev !! k = Some 20%float
            /\ (20 <? 20)%float = false
            /\ cmass !! k = Some false)
         /\ (devrad_i row = 7.91%float ->
               exists x : float, rdev !! k = Some x /\ (x <? 20)%float = true).
Proof.
  eexists _, _, _. split; [apply rdev_i_rows|].
  split; [apply photometric_cuts_rows|].
  intros k row Hk. rewrite !list_lookup_fmap, Hk. cbn [fmap option_fmap option_map].
  split; intros H.
  - unfold CMASS_row, spec_r_dev_i. rewrite H.
    change (7.92 / 0.396)%float with 20%float.
    change (20 <? 20)%float with false.
    rewrite andb_false_r. auto.
  - eexists. split; [reflexivity|].
    unfold spec_r_dev_i. rewrite H. reflexivity.
Qed.

(** The boundary on a row that passes the other seven cuts: CMASS is true
    with devrad_i = 7.91 and false with devrad_i = 7.92. *)
Example CMASS_boundary_rows :
  photometric_cuts (photo_table [cmass_row_791; cmass_row_792])
  = Returns (Array [false; false], Array [true; false]).
Proof. vm_compute. reflexivity. Qed.

(** The same boundary when the column is stored in single precision:
    binary32 division of 7.92 by 0.396 is exactly 20 as well. *)
Example rdev_boundary_binary32 :
  div32 (binary32 7.92) (binary32 0.396) = binary32 20
  /\ SFltb (div32 (binary32 7.92) (binary32 0.396)) (binary32 20) = false
  /\ SFltb (div32 (binary32 7.91) (binary32 0.396)) (binary32 20) = true.
Proof. repeat split; vm_compute; reflexivity. Qed.

(** ** C9: arrays of different lengths *)

Lemma broadcast_only_ValueError {A B C} (f : A -> B -> C) (a : nd A) (b : nd B) :
  only_ValueError (broadcast f a b).
Proof.
  intros e. destruct a as [x|l], b as [y|k]; cbn; try discriminate.
  destruct (length l =? length k); [discriminate|].
  destruct l as [|x [|x' l]], k as [|y [|y' k]]; cbn; congruence.
Qed.

Lemma binop_only_ValueError {A B C} (f : A -> B -> C)
    (x : outcome (nd A)) (y : outcome (nd B)) :
  only_ValueError x -> only_ValueError y -> only_ValueError (np_binop f x y).
Proof.
  intros Hx Hy e. unfold np_binop.
  destruct x as [a|ex]; cbn; [|intros [= <-]; now apply Hx].
  destruct y as [b|ey]; cbn; [|intros [= <-]; now apply Hy].
  apply broadcast_only_ValueError.
Qed.

Lemma returns_only_ValueError {A} (a : A) : only_ValueError (Returns a).
Proof. intros e; discriminate. Qed.

Lemma binop_mismatch {A B C} (f : A -> B -> C) (l : list A) (k : list B) :
  ~ broadcastable (length l) (length k) ->
  np_binop f (Returns (Array l)) (Returns (Array k)) = Raises ValueError.
Proof.
  unfold broadcastable, np_binop; cbn. intros H.
  destruct (Nat.eqb_spec (length l) (length k)) as [E|E]; [tauto|].
  destruct l as [|x [|x' l]], k as [|y [|y' k]]; cbn in *; tauto.
Qed.

Lemma photo_table_columns (rows : list CatalogRow) (name : string)
    (v : nd float) :
  getitem (photo_table rows) name = Returns v ->
  exists l : list float, v = Array l /\ length l = length rows.
Proof.
  unfold photo_table, recarray_of, column; cbn.
  destruct (photo_fields name) as [p|]; [|discriminate].
  intros [= <-]. eexists. split; [reflexivity | apply length_fmap].
Qed.

(** C9 (as amended).  [auxilliary_colors] has no length check.  Its input is
    one structured array: every magnitude column has the length of the batch
    and the function returns one record per row, without failing.  On bare
    column arrays the only rejection is numpy's broadcasting rule: when the
    lengths of g and r, or of r and i, disagree and neither is 1, the
    arithmetic raises [ValueError]. *)
Theorem C9_no_length_check :
  (forall rows : list CatalogRow,
     (forall name v, getitem (photo_table rows) name = Returns v ->
        exists l, v = Array l /\ length l = length rows)
     /\ exists aux, auxilliary_colors (photo_table rows) = Returns aux
                    /\ length aux = length rows)
  /\ (forall (n : nat) (g r i : list float),
        ~ broadcastable (length g) (length r)
        \/ ~ broadcastable (length r) (length i) ->
        auxilliary_colors (columns_table n g r i) = Raises ValueError).
Proof.
  split.
  - intros rows. split; [apply photo_table_columns|].
    exists (spec_aux <$> rows).
    split; [apply auxilliary_colors_rows | apply length_fmap].
  - intros n g r i H. unfold auxilliary_colors.
    change (getitem (columns_table n g r i) "modelmag_g") with (Returns (Array g)).
    change (getitem (columns_table n g r i) "modelmag_r") with (Returns (Array r)).
    change (getitem (columns_table n g r i) "modelmag_i") with (Returns (Array i)).
    destruct H as [H|H]; rewrite !(binop_mismatch _ _ _ H); [reflexivity|].
    assert (HV : only_ValueError
                   (#0.7 *. (Returns (Array g) -. Returns (Array r)))).
    { apply binop_only_ValueError; [apply returns_only_ValueError|].
      apply binop_only_ValueError; apply returns_only_ValueError. }
    destruct (#0.7 *. (Returns (Array g) -. Returns (Array r))) as [a|e].
    + reflexivity.
    + rewrite (HV e eq_refl). reflexivity.
Qed.

(** A run of the amended C9: columns of lengths 2 and 3 are rejected. *)
Lemma C9_no_length_check_witness :
  ~ broadcastable (length [21.2; 21.0]%float) (length [19.5; 19.0; 18.5]%float)
  /\ auxilliary_colors
       (columns_table 3 [21.2; 21.0]%float [19.5; 19.0; 18.5]%float
                        [18.6; 18.0; 17.5]%float)
     = Raises ValueError.
Proof.
  assert (H : ~ broadcastable (length [21.2; 21.0]%float)
                              (length [19.5; 19.0; 18.5]%float)).
  { unfold broadcastable; cbn; lia. }
  split; [exact H|].
  exact (proj2 C9_no_length_check 3 _ _ _ (or_introl H)).
Defined.

(** C9 as stated fails: a g column of length 1 against r and i columns of
    length 3 is broadcast, and the function returns three records. *)
Lemma C9_broadcast_counterexample :
  length [21.2]%float <> length [19.5; 19.0; 18.5]%float
  /\ exists aux : list AuxiliaryColor,
       auxilliary_colors
         (columns_table 3 [21.2]%float [19.5; 19.0; 18.5]%float
                          [18.6; 18.0; 17.5]%float)
       = Returns aux
       /\ length aux = 3.
Proof.
  split; [cbn; lia|].
  eexists. split; [vm_compute; reflexivity | reflexivity].
Qed.

(** ** Decoded files: rows and the wavelength grid *)

Lemma np_arange_length (N : nat) : length (np_arange (Z.of_nat N)) = N.
Proof. unfold np_arange. now rewrite length_fmap, length_seq, Nat2Z.id. Qed.

Lemma np_arange_lookup (N k : nat) :
  k < N -> np_arange (Z.of_nat N) !! k = Some (float_of_nat k).
Proof.
  intros Hk. unfold np_arange.
  rewrite list_lookup_fmap, Nat2Z.id, lookup_seq_lt by exact Hk.
  reflexivity.
Qed.

Lemma getrow_in_range (h : HDU) (nrows N : nat) (idx : Z) :
  block_shape h nrows N ->
  (- Z.of_nat nrows <= idx < Z.of_nat nrows)%Z ->
  exists r, getrow (data h) idx = Returns r /\ length r = N.
Proof.
  intros (rows & Hd & Hl & Hall) Hidx. unfold getrow. rewrite Hd, Hl.
  set (k := if (idx <? 0)%Z then (idx + Z.of_nat nrows)%Z else idx).
  assert (Hk : (0 <= k < Z.of_nat nrows)%Z).
  { subst k. destruct (Z.ltb_spec idx 0); lia. }
  destruct (Z.leb_spec 0 k); [|lia]. destruct (Z.ltb_spec k (Z.of_nat nrows)); [|lia].
  cbn [andb].
  destruct (rows !! Z.to_nat k) as [r|] eqn:Hr.
  - exists r. split; [reflexivity|].
    exact (proj1 (Forall_lookup _ rows) Hall _ _ Hr).
  - apply lookup_ge_None in Hr. lia.
Qed.

Lemma getrow_out_of_range (rows : list (list float)) (idx : Z) :
  (idx < - Z.of_nat (length rows) \/ Z.of_nat (length rows) <= idx)%Z ->
  getrow (Some rows) idx = Raises IndexError.
Proof.
  intros Hidx. unfold getrow.
  destruct (Z.ltb_spec idx 0).
  - destruct (Z.leb_spec 0 (idx + Z.of_nat (length rows))); [lia|]. reflexivity.
  - destruct (Z.leb_spec 0 idx); [|lia].
    destruct (Z.ltb_spec idx (Z.of_nat (length rows))); [lia|]. reflexivity.
Qed.

Lemma getrow_wrap (rows : list (list float)) (idx : Z) :
  (- Z.of_nat (length rows) <= idx < 0)%Z ->
  getrow (Some rows) idx = getrow (Some rows) (idx + Z.of_nat (length rows)).
Proof.
  intros Hidx. unfold getrow.
  destruct (Z.ltb_spec idx 0); [|lia].
  destruct (Z.ltb_spec (idx + Z.of_nat (length rows)) 0); [lia|]. reflexivity.
Qed.

Lemma image_map_compose (f g : float -> float) (img : list (list float)) :
  image_map f (image_map g img) = image_map (fun x => f (g x)) img.
Proof.
  unfold image_map. rewrite <- list_fmap_compose.
  apply list_fmap_ext. intros _ row _. cbn. now rewrite <- list_fmap_compose.
Qed.

Lemma softening_lookup (band : string) (b : float) :
  (band, b) ∈ softening_table -> softening !! band = Some b.
Proof.
  unfold softening_table. intros H.
  repeat (apply elem_of_cons in H as [[= -> ->]|H]; [vm_compute; reflexivity|]).
  now apply elem_of_nil in H.
Qed.

Lemma softening_unknown (band : string) :
  band ∉ ["u"; "g"; "r"; "i"; "z"] -> softening !! band = None.
Proof.
  intros H. repeat (apply not_elem_of_cons in H as [? H]).
  unfold softening.
  rewrite !lookup_insert_ne by congruence.
  now apply lookup_singleton_ne.
Qed.

Lemma softening_zero_flux (band : string) (b : float) :
  (band, b) ∈ softening_table -> (0 * 1.0e-9 / (2.0 * b))%float = 0%float.
Proof.
  unfold softening_table. intros H.
  repeat (apply elem_of_cons in H as [[= -> ->]|H]; [vm_compute; reflexivity|]).
  now apply elem_of_nil in H.
Qed.

(** Adding a binary64 number to +0 leaves it unchanged, unless it is -0. *)
Lemma add_zero_l (y : float) : y <> (-0)%float -> (0 + y)%float = y.
Proof.
  intros Hy. apply Prim2SF_inj. rewrite add_spec.
  change (Prim2SF 0) with (S754_zero false).
  destruct (Prim2SF y) as [[|]| | |] eqn:E; try reflexivity.
  exfalso. apply Hy. rewrite <- (SF2Prim_Prim2SF y), E. reflexivity.
Qed.

Section ReconstructorFacts.

Variable np_log : float -> float.
Variable np_arcsinh : float -> float.
Variable np_power : float -> float -> float.
Variable storage : nat -> string -> outcome bytes.
Variable fits_open : bytes -> outcome (list HDU).
Variable bz2_read : bytes -> outcome bytes.

(** The wavelength grid computed from the cards of block 0. *)
#[local] Abbreviation grid c0 c1 N :=
  (np_power 10 <$> ((fun x => c0 + c1 * x)%float <$> np_arange (Z.of_nat N))).

Lemma extract_spectrum_run plate mjd fiber run2d sas w raw hdulist :
  storage (length (requests w)) (spectrum_path sas run2d plate mjd)
    = Returns raw ->
  fits_open raw = Returns hdulist ->
  extract_spectrum np_power storage fits_open plate mjd fiber run2d sas w
  = (read_spectrum np_power hdulist fiber,
     {| extract_frame_cache := extract_frame_cache w;
        requests := requests w ++ [spectrum_path sas run2d plate mjd] |}).
Proof.
  intros Hs Hf.
  unfold extract_spectrum, sc_get, lift, mbind, proc_bind.
  now rewrite Hs, Hf.
Qed.

Lemma read_spectrum_well_formed hdulist nrows N c0 c1 fiber :
  well_formed_plate hdulist nrows N c0 c1 ->
  (- Z.of_nat nrows <= fiber - 1 < Z.of_nat nrows)%Z ->
  exists flux ivar sky,
    read_spectrum np_power hdulist fiber
      = Returns (grid c0 c1 N, flux, ivar, sky)
    /\ length flux = N /\ length ivar = N /\ length sky = N.
Proof.
  intros (h0 & h1 & h6 & H0 & H1 & H6 & B0 & B1 & B6 & C0 & C1 & NX) Hf.
  destruct (getrow_in_range _ _ _ _ B0 Hf) as (flux & Gf & Lf).
  destruct (getrow_in_range _ _ _ _ B1 Hf) as (ivar & Gi & Li).
  destruct (getrow_in_range _ _ _ _ B6 Hf) as (sky & Gs & Ls).
  exists flux, ivar, sky. split; [|auto].
  unfold read_spectrum, hdulist_get.
  rewrite H0, H1, H6. cbn [mbind outcome_bind].
  rewrite Gf, Gi, Gs, C0, C1, NX. reflexivity.
Qed.

Lemma grid_lookup c0 c1 N k :
  k < N ->
  grid c0 c1 N !! k = Some (np_power 10 (c0 + c1 * float_of_nat k)%float).
Proof.
  intros Hk. rewrite !list_lookup_fmap, np_arange_lookup by exact Hk.
  reflexivity.
Qed.


Lemma read_spectrum_out_of_range hdulist nrows N c0 c1 fiber :
  well_formed_plate hdulist nrows N c0 c1 ->
  (Z.of_nat nrows < fiber \/ fiber <= - Z.of_nat nrows)%Z ->
  read_spectrum np_power hdulist fiber = Raises IndexError.
Proof.
  intros (h0 & h1 & h6 & H0 & _ & _ & (rows & Hd & Hl & _) & _) Hf.
  unfold read_spectrum, hdulist_get. rewrite H0. cbn [mbind outcome_bind].
  rewrite Hd, getrow_out_of_range by lia. reflexivity.
Qed.

Lemma getrow_block_wrap (h : HDU) (nrows N : nat) (fiber : Z) :
  block_shape h nrows N ->
  (- Z.of_nat nrows < fiber <= 0)%Z ->
  getrow (data h) (fiber - 1) = getrow (data h) (fiber + Z.of_nat nrows - 1).
Proof.
  intros (rows & Hd & Hl & _) Hf. rewrite Hd, getrow_wrap by lia.
  f_equal. lia.
Qed.

Lemma read_spectrum_wrap hdulist nrows N c0 c1 fiber :
  well_formed_plate hdulist nrows N c0 c1 ->
  (- Z.of_nat nrows < fiber <= 0)%Z ->
  read_spectrum np_power hdulist fiber
  = read_spectrum np_power hdulist (fiber + Z.of_nat nrows).
Proof.
  intros (h0 & h1 & h6 & H0 & H1 & H6 & B0 & B1 & B6 & _) Hf.
  unfold read_spectrum, hdulist_get.
  rewrite H0, H1, H6. cbn [mbind outcome_bind].
  rewrite (getrow_block_wrap _ _ _ _ B0 Hf), (getrow_block_wrap _ _ _ _ B1 Hf),
    (getrow_block_wrap _ _ _ _ B6 Hf).
  reflexivity.
Qed.

Lemma read_spectrum_wavelength_length hdulist fiber wavelength flux ivar sky :
  read_spectrum np_power hdulist fiber
    = Returns (wavelength, flux, ivar, sky) ->
  exists (hdu0 hdu1 hdu6 : HDU) (n : Z),
    hdulist !! 0 = Some hdu0 /\ hdulist !! 1 = Some hdu1
    /\ hdulist !! 6 = Some hdu6
    /\ NAXIS1 (header hdu0) = Some n
    /\ length wavelength = Z.to_nat n
    /\ getrow (data hdu0) (fiber - 1) = Returns flux
    /\ getrow (data hdu1) (fiber - 1) = Returns ivar
    /\ getrow (data hdu6) (fiber - 1) = Returns sky.
Proof.
  unfold read_spectrum, hdulist_get.
  destruct (hdulist !! 0) as [h0|] eqn:H0; [|discriminate].
  cbn [mbind outcome_bind].
  destruct (getrow (data h0) (fiber - 1)) as [f|] eqn:G0; [|discriminate].
  cbn [mbind outcome_bind].
  destruct (hdulist !! 1) as [h1|] eqn:H1; [|discriminate].
  cbn [mbind outcome_bind].
  destruct (getrow (data h1) (fiber - 1)) as [iv|] eqn:G1; [|discriminate].
  cbn [mbind outcome_bind].
  destruct (hdulist !! 6) as [h6|] eqn:H6; [|discriminate].
  cbn [mbind outcome_bind].
  destruct (getrow (data h6) (fiber - 1)) as [sk|] eqn:G6; [|discriminate].
  cbn [mbind outcome_bind].
  destruct (COEFF0 (header h0)) as [c0|]; [|discriminate].
  destruct (COEFF1 (header h0)) as [c1|]; [|discriminate].
  destruct (NAXIS1 (header h0)) as [n|] eqn:NX; [|discriminate].
  cbn. intros [= <- <- <- <-].
  exists h0, h1, h6, n. repeat split; try assumption.
  unfold np_arange. now rewrite !length_fmap, length_seq.
Qed.

(** C7 (as amended).  Spectrum extraction validates nothing itself: the
    row index fiber-1 is only checked by the array indexing.  On a
    well-formed file of num_rows rows the call fails with [IndexError]
    when fiber > num_rows or fiber <= -num_rows; a fiber with
    -num_rows < fiber <= 0 is accepted, its negative index counts from the
    end, and the call returns what fiber + num_rows returns. *)
Theorem C7_fiber_bounds plate mjd fiber run2d sas w raw hdulist
    nrows N c0 c1 :
  storage (length (requests w)) (spectrum_path sas run2d plate mjd)
    = Returns raw ->
  fits_open raw = Returns hdulist ->
  well_formed_plate hdulist nrows N c0 c1 ->
  ((Z.of_nat nrows < fiber \/ fiber <= - Z.of_nat nrows)%Z ->
     exists w',
       extract_spectrum np_power storage fits_open plate mjd fiber run2d sas w
       = (Raises IndexError, w'))
  /\ ((- Z.of_nat nrows < fiber <= 0)%Z ->
        exists result w',
          extract_spectrum np_power storage fits_open
            plate mjd fiber run2d sas w = (Returns result, w')
          /\ extract_spectrum np_power storage fits_open
               plate mjd (fiber + Z.of_nat nrows) run2d sas w
             = (Returns result, w')).
Proof.
  intros Hs Hf Hwf.
  rewrite !(extract_spectrum_run _ _ _ _ _ _ _ _ Hs Hf). split; intros Hfiber.
  - eexists. now rewrite (read_spectrum_out_of_range _ _ _ _ _ _ Hwf Hfiber).
  - rewrite <- (read_spectrum_wrap _ _ _ _ _ _ Hwf Hfiber).
    destruct (read_spectrum_well_formed _ _ _ _ _ fiber Hwf)
      as (flux & ivar & sky & Hr & _); [lia|].
    rewrite Hr. eexists _, _. split; reflexivity.
Qed.

(** C8 (as amended).  The code compares no lengths.  On a well-formed file
    (blocks 0, 1 and 6 with rows of one length N, and NAXIS1 = N in block
    0) every successful extraction returns four arrays of length N.  On
    any file, a successful extraction returns a wavelength array of
    NAXIS1 entries and the rows fiber-1 of blocks 0, 1 and 6 as they are,
    whatever their lengths. *)
Theorem C8_lengths plate mjd fiber run2d sas w raw hdulist
    wavelength flux ivar sky w' :
  storage (length (requests w)) (spectrum_path sas run2d plate mjd)
    = Returns raw ->
  fits_open raw = Returns hdulist ->
  extract_spectrum np_power storage fits_open plate mjd fiber run2d sas w
    = (Returns (wavelength, flux, ivar, sky), w') ->
  (forall nrows N c0 c1,
     well_formed_plate hdulist nrows N c0 c1 ->
     length wavelength = N /\ length flux = N
     /\ length ivar = N /\ length sky = N)
  /\ (exists (hdu0 hdu1 hdu6 : HDU) (n : Z),
        hdulist !! 0 = Some hdu0 /\ hdulist !! 1 = Some hdu1
        /\ hdulist !! 6 = Some hdu6
        /\ NAXIS1 (header hdu0) = Some n
        /\ length wavelength = Z.to_nat n
        /\ getrow (data hdu0) (fiber - 1) = Returns flux
        /\ getrow (data hdu1) (fiber - 1) = Returns ivar
        /\ getrow (data hdu6) (fiber - 1) = Returns sky).
Proof.
  intros Hs Hf. rewrite (extract_spectrum_run _ _ _ _ _ _ _ _ Hs Hf).
  intros [= Hr _]. split; [|now apply read_spectrum_wavelength_length].
  intros nrows N c0 c1 Hwf.
  destruct (Z.le_gt_cases fiber (- Z.of_nat nrows)) as [Hlo|Hlo];
    [rewrite (read_spectrum_out_of_range _ _ _ _ _ fiber Hwf) in Hr
       by (right; lia); discriminate|].
  destruct (Z.le_gt_cases fiber (Z.of_nat nrows)) as [Hhi|Hhi];
    [|rewrite (read_spectrum_out_of_range _ _ _ _ _ fiber Hwf) in Hr
       by (left; lia); discriminate].
  destruct (read_spectrum_well_formed _ _ _ _ _ fiber Hwf)
    as (f & iv & sk & Hr' & Lf & Li & Ls); [lia|].
  rewrite Hr' in Hr. injection Hr as <- <- <- <-.
  now rewrite !length_fmap, np_arange_length.
Qed.


(** *** The frame cache *)

Lemma extract_frame_unfold run camcol field band sas (w : world) :
  let fm := frame_path sas run camcol band field in
  let asked := {| extract_frame_cache := extract_frame_cache w;
                  requests := requests w ++ [fm] |} in
  extract_frame storage fits_open bz2_read run camcol field band sas w
  = match extract_frame_cache w !! fm with
    | Some img => (Returns img, w)
    | None =>
        match storage (length (requests w)) fm with
        | Raises e => (Raises e, asked)
        | Returns raw =>
            match bz2_read raw with
            | Raises e => (Raises e, asked)
            | Returns cf =>
                match fits_open cf with
                | Raises e => (Raises e, asked)
                | Returns hdulist =>
                    match hdulist !! 0 with
                    | None => (Raises IndexError, asked)
                    | Some hdu0 =>
                        (Returns (data hdu0),
                         {| extract_frame_cache :=
                              <[fm := data hdu0]> (extract_frame_cache w);
                            requests := requests w ++ [fm] |})
                    end
                end
            end
        end
    end.
Proof.
  intros fm asked.
  unfold extract_frame, cache_contains, cache_lookup, cache_store, sc_get,
    lift, hdulist_get, mbind, proc_bind, mret, proc_ret.
  fold fm.
  destruct (extract_frame_cache w !! fm) as [img|] eqn:Hc.
  - rewrite bool_decide_eq_true_2 by eauto. now rewrite Hc.
  - rewrite bool_decide_eq_false_2 by (intros [? ?]; discriminate).
    destruct (storage (length (requests w)) fm) as [raw|e]; [|reflexivity].
    destruct (bz2_read raw) as [cf|e]; [|reflexivity].
    destruct (fits_open cf) as [hdulist|e]; [|reflexivity].
    destruct (hdulist !! 0) as [hdu0|]; [|reflexivity].
    cbn. now rewrite lookup_insert_eq.
Qed.

(** A call never removes or changes a cache entry, and only appends to the
    log of storage requests. *)
Lemma extract_frame_grows run camcol field band sas (w w' : world)
    (r : outcome image) :
  extract_frame storage fits_open bz2_read run camcol field band sas w
    = (r, w') ->
  extract_frame_cache w ⊆ extract_frame_cache w'
  /\ exists asked, requests w' = requests w ++ asked.
Proof.
  rewrite extract_frame_unfold. cbv zeta.
  destruct (extract_frame_cache w !! _) as [img|] eqn:Hc.
  { intros [= _ <-]. split; [reflexivity | exists []; now rewrite app_nil_r]. }
  destruct (storage _ _) as [raw|e];
    [|intros [= _ <-]; split; [reflexivity | eauto]].
  destruct (bz2_read raw) as [cf|e];
    [|intros [= _ <-]; split; [reflexivity | eauto]].
  destruct (fits_open cf) as [hdulist|e];
    [|intros [= _ <-]; split; [reflexivity | eauto]].
  destruct (hdulist !! 0) as [hdu0|];
    [|intros [= _ <-]; split; [reflexivity | eauto]].
  intros [= _ <-]. cbn. split; [now apply insert_subseteq | eauto].
Qed.

Lemma extract_frame_hit run camcol field band sas (w : world) (img : image) :
  extract_frame_cache w !! frame_path sas run camcol band field = Some img ->
  extract_frame storage fits_open bz2_read run camcol field band sas w
  = (Returns img, w).
Proof. intros H. rewrite extract_frame_unfold. cbv zeta. now rewrite H. Qed.

Lemma extract_spectrum_keeps_cache plate mjd fiber run2d sas (w : world) :
  extract_frame_cache
    (snd (extract_spectrum np_power storage fits_open
            plate mjd fiber run2d sas w))
  = extract_frame_cache w.
Proof.
  unfold extract_spectrum, sc_get, lift, mbind, proc_bind.
  destruct (storage _ _) as [raw|e]; [|reflexivity].
  destruct (fits_open raw) as [hdulist|e]; reflexivity.
Qed.

Lemma perform_grows (c : call) (w : world) :
  extract_frame_cache w
  ⊆ extract_frame_cache
      (perform np_power storage fits_open bz2_read c w).
Proof.
  destruct c as [run camcol field band sas | plate mjd fiber run2d sas]; cbn.
  - destruct (extract_frame storage fits_open bz2_read
                run camcol field band sas w) as [r w'] eqn:E.
    exact (proj1 (extract_frame_grows _ _ _ _ _ _ _ _ E)).
  - now rewrite extract_spectrum_keeps_cache.
Qed.

Lemma run_calls_grows (cs : list call) (w : world) :
  extract_frame_cache w
  ⊆ extract_frame_cache
      (run_calls np_power storage fits_open bz2_read cs w).
Proof.
  revert w. induction cs as [|c cs IH]; intros w; cbn; [reflexivity|].
  etransitivity; [apply perform_grows | apply IH].
Qed.

(** C6.  When a call of [extract_frame] returns, the next call with the
    same (run, camcol, field, band) returns the same memoized array and
    leaves the process unchanged: it asks the storage collaborator nothing.
    Over the two calls the collaborator is asked exactly once (for the frame
    path) when the path was not cached before.  No call of the process ever
    evicts or changes a cache entry: after any further calls the same
    request is still answered from the cache, without a storage request. *)
Theorem C6_frame_memoized run camcol field band sas (w w1 : world)
    (img : image) :
  extract_frame storage fits_open bz2_read run camcol field band sas w
    = (Returns img, w1) ->
  extract_frame storage fits_open bz2_read run camcol field band sas w1
    = (Returns img, w1)
  /\ (extract_frame_cache w !! frame_path sas run camcol band field = None ->
        requests w1 = requests w ++ [frame_path sas run camcol band field]
        /\ length (requests w1) = length (requests w) + 1)
  /\ (forall (cs : list call) (w2 : world),
        w2 = run_calls np_power storage fits_open bz2_read cs w1 ->
        extract_frame_cache w1 ⊆ extract_frame_cache w2
        /\ extract_frame storage fits_open bz2_read
             run camcol field band sas w2 = (Returns img, w2)).
Proof.
  intros H1.
  assert (Hc : extract_frame_cache w1 !! frame_path sas run camcol band field
               = Some img
               /\ (extract_frame_cache w !! frame_path sas run camcol band field
                     = None ->
                   requests w1
                   = requests w ++ [frame_path sas run camcol band field])).
  { rewrite extract_frame_unfold in H1. cbv zeta in H1.
    destruct (extract_frame_cache w !! _) as [img0|] eqn:Hc.
    { injection H1 as <- <-. split; [exact Hc | discriminate]. }
    destruct (storage _ _) as [raw|e]; [|discriminate].
    destruct (bz2_read raw) as [cf|e]; [|discriminate].
    destruct (fits_open cf) as [hdulist|e]; [|discriminate].
    destruct (hdulist !! 0) as [hdu0|]; [|discriminate].
    injection H1 as <- <-. cbn. split; [apply lookup_insert_eq | reflexivity]. }
  destruct Hc as [Hc Hreq].
  split; [now apply extract_frame_hit|].
  split.
  - intros Hnone. rewrite (Hreq Hnone), length_app. split; reflexivity.
  - intros cs w2 ->.
    pose proof (run_calls_grows cs w1) as Hsub.
    split; [exact Hsub|].
    apply extract_frame_hit.
    exact (lookup_weaken _ _ _ _ Hc Hsub).
Qed.

End ReconstructorFacts.

(** ** Runs on the sample files *)

Lemma sample_plate_well_formed :
  well_formed_plate sample_plate 2 4 3.5 0.0001.
Proof.
  exists (block 4 flux_rows), (block 4 ivar_rows), (block 4 sky_rows).
  repeat split; try reflexivity;
    (eexists; split; [reflexivity|]; split; [reflexivity|];
     repeat constructor).
Qed.


(** C6 in a fresh process: the first call fetches the frame once, the second
    call returns it from the cache. *)
Lemma C6_frame_memoized_witness :
  let call := extract_frame online_storage (decodes_to sample_frame)
                bz2_identity 6122 1 13 "r" default_sas in
  let after := snd (call fresh_process) in
  call fresh_process = (Returns (Some [[0; 1]; [2; 3]]%float), after)
  /\ call after = (Returns (Some [[0; 1]; [2; 3]]%float), after)
  /\ requests after = [frame_path default_sas 6122 1 "r" 13].
Proof.
  intros call after.
  assert (H : call fresh_process
              = (Returns (Some [[0; 1]; [2; 3]]%float), after)).
  { vm_compute. reflexivity. }
  split; [exact H|].
  destruct (C6_frame_memoized stub_power online_storage
              (decodes_to sample_frame) bz2_identity 6122 1 13 "r" default_sas
              fresh_process after _ H)
    as (Hsecond & Hreq & _).
  split; [exact Hsecond|].
  exact (proj1 (Hreq (lookup_empty _))).
Defined.

(** The amended C7 on the sample file of two fibers: fiber 3 is rejected,
    fiber 0 returns what fiber 2 returns. *)
Lemma C7_fiber_bounds_witness :
  well_formed_plate sample_plate 2 4 3.5 0.0001
  /\ (exists w',
        extract_spectrum stub_power online_storage (decodes_to sample_plate)
          4202 55445 3 default_run2d default_sas fresh_process
        = (Raises IndexError, w'))
  /\ (exists result w',
        extract_spectrum stub_power online_storage (decodes_to sample_plate)
          4202 55445 0 default_run2d default_sas fresh_process
        = (Returns result, w')
        /\ extract_spectrum stub_power online_storage (decodes_to sample_plate)
             4202 55445 2 default_run2d default_sas fresh_process
           = (Returns result, w')).
Proof.
  split; [exact sample_plate_well_formed|].
  split.
  - apply (proj1 (C7_fiber_bounds stub_power online_storage
                    (decodes_to sample_plate) 4202 55445 3 default_run2d
                    default_sas fresh_process [] sample_plate 2 4 3.5 0.0001
                    eq_refl eq_refl sample_plate_well_formed)).
    lia.
  - apply (proj2 (C7_fiber_bounds stub_power online_storage
                    (decodes_to sample_plate) 4202 55445 0 default_run2d
                    default_sas fresh_process [] sample_plate 2 4 3.5 0.0001
                    eq_refl eq_refl sample_plate_well_formed)).
    lia.
Defined.

(** C7 as stated fails: fiber 0 lies outside 1 <= fiber <= 2, and the call
    returns the data of the last row instead of failing. *)
Lemma C7_fiber_zero_counterexample :
  ~ (1 <= 0 <= Z.of_nat (length flux_rows))%Z
  /\ exists wavelength w',
       extract_spectrum stub_power online_storage (decodes_to sample_plate)
         4202 55445 0 default_run2d default_sas fresh_process
       = (Returns (wavelength, [5.5; 6.5; 7.5; 8.5]%float,
                   [0.5; 0.6; 0.7; 0.8]%float, [50; 60; 70; 80]%float), w').
Proof.
  split; [lia|]. eexists _, _. vm_compute. reflexivity.
Qed.

(** The amended C8 on the sample file. *)
Lemma C8_lengths_witness :
  let call := extract_spectrum stub_power online_storage
                (decodes_to sample_plate) 4202 55445 1 default_run2d
                default_sas in
  call fresh_process
  = (Returns ([3.5; 3.5001; 3.5002; 3.5003]%float, [1.5; 2.5; 3.5; 4.5]%float,
              [0.1; 0.2; 0.3; 0.4]%float, [10; 20; 30; 40]%float),
     snd (call fresh_process))
  /\ length [3.5; 3.5001; 3.5002; 3.5003]%float = 4
  /\ length [1.5; 2.5; 3.5; 4.5]%float = 4
  /\ length [0.1; 0.2; 0.3; 0.4]%float = 4
  /\ length [10; 20; 30; 40]%float = 4.
Proof.
  intros call.
  assert (H : call fresh_process
              = (Returns ([3.5; 3.5001; 3.5002; 3.5003]%float,
                          [1.5; 2.5; 3.5; 4.5]%float,
                          [0.1; 0.2; 0.3; 0.4]%float,
                          [10; 20; 30; 40]%float),
                 snd (call fresh_process))).
  { vm_compute. reflexivity. }
  split; [exact H|].
  exact (proj1 (C8_lengths stub_power online_storage (decodes_to sample_plate)
                  4202 55445 1 default_run2d default_sas fresh_process []
                  sample_plate _ _ _ _ _ eq_refl eq_refl H)
           2 4 3.5%float 0.0001%float sample_plate_well_formed).
Defined.

(** C8 as stated fails.  With NAXIS1 = 5 over rows of four samples the
    wavelength array has five entries and the flux four; with an
    inverse-variance block of three samples per row the flux has four
    entries and the inverse variance three.  Both extractions succeed. *)
Lemma C8_lengths_counterexample :
  (exists wavelength flux ivar sky w',
     extract_spectrum stub_power online_storage (decodes_to wrong_naxis_plate)
       4202 55445 1 default_run2d default_sas fresh_process
     = (Returns (wavelength, flux, ivar, sky), w')
     /\ length wavelength = 5 /\ length flux = 4)
  /\ (exists wavelength flux ivar sky w',
        extract_spectrum stub_power online_storage (decodes_to ragged_plate)
          4202 55445 1 default_run2d default_sas fresh_process
        = (Returns (wavelength, flux, ivar, sky), w')
        /\ length flux = 4 /\ length ivar = 3).
Proof.
  split; eexists _, _, _, _, _;
    (split; [vm_compute; reflexivity | split; reflexivity]).
Qed.

(** ** Further runs *)

(** A call that fails caches nothing: with the store unreachable, two calls
    for the same frame ask the storage collaborator twice. *)
Example offline_frame_asks_twice :
  let call := extract_frame offline_storage (decodes_to sample_frame)
                bz2_identity 6122 1 13 "r" default_sas in
  exists e after,
    call fresh_process = (Raises e, after)
    /\ extract_frame_cache after = ∅
    /\ requests (snd (call after))
       = [frame_path default_sas 6122 1 "r" 13;
          frame_path default_sas 6122 1 "r" 13].
Proof.
  intros call. eexists _, _.
  split; [vm_compute; reflexivity|]. split; vm_compute; reflexivity.
Qed.

(** An unknown band is rejected by the table lookup. *)
Example asinh_image_band_x :
  asinh_image stub_log stub_arcsinh [[1.0%float]] "x" = Raises (KeyError "x").
Proof. vm_compute. reflexivity. Qed.

(** ** Counting and plotting the selected rows *)

Lemma compress_fmap {R A} (p : R -> A) (h : R -> bool) (rows : list R) :
  compress (p <$> rows) (h <$> rows)
  = p <$> filter (fun r => h r = true) rows.
Proof.
  induction rows as [|r rows IH]; [reflexivity|].
  cbn [fmap list_fmap compress]. fold (p <$> rows) (h <$> rows).
  destruct (h r) eqn:E.
  - rewrite filter_cons_True by exact E. cbn. now rewrite IH.
  - rewrite filter_cons_False by (rewrite E; discriminate). exact IH.
Qed.

Lemma getmask_col {R A} (p : R -> A) (h : R -> bool) (rows : list R) :
  np_getmask (column p rows) (h <$> rows)
  = column p (filter (fun r => h r = true) rows).
Proof.
  unfold np_getmask, column. cbn [mbind outcome_bind].
  now rewrite !length_fmap, Nat.eqb_refl, compress_fmap.
Qed.

Lemma np_sum_col {R} (h : R -> bool) (rows : list R) :
  np_sum (Array (h <$> rows)) = length (filter (fun r => h r = true) rows).
Proof.
  cbn [np_sum]. induction rows as [|r rows IH]; [reflexivity|].
  cbn [fmap list_fmap sum_list sum_list_with]. fold (h <$> rows).
  fold (sum_list (Nat.b2n <$> (h <$> rows))). rewrite IH.
  destruct (h r) eqn:E.
  - rewrite filter_cons_True by exact E. reflexivity.
  - rewrite filter_cons_False by (rewrite E; discriminate). reflexivity.
Qed.

Lemma ax_plot_cols {R} (p q : R -> float) (rows : list R) (lbl : string) :
  ax_plot (Array (p <$> rows)) (Array (q <$> rows)) lbl
  = Returns {| xdata := p <$> rows; ydata := q <$> rows; label := lbl |}.
Proof.
  unfold ax_plot. cbn [atleast_1d]. now rewrite !length_fmap, Nat.eqb_refl.
Qed.



(** ** Missing measurements: NaN

    binary64 arithmetic propagates NaN and every comparison with NaN is
    false. *)

Ltac nan_operand spec :=
  intros; apply Prim2SF_inj; rewrite spec;
  change (Prim2SF nan) with S754_nan;
  match goal with
  | |- context [Prim2SF ?y] => destruct (Prim2SF y) as [?|?| |? ? ?]
  | _ => idtac
  end; reflexivity.

Lemma add_nan_l y : (nan + y)%float = nan.
Proof. nan_operand add_spec. Qed.
Lemma add_nan_r x : (x + nan)%float = nan.
Proof. nan_operand add_spec. Qed.
Lemma sub_nan_l y : (nan - y)%float = nan.
Proof. nan_operand sub_spec. Qed.
Lemma sub_nan_r x : (x - nan)%float = nan.
Proof. nan_operand sub_spec. Qed.
Lemma mul_nan_r x : (x * nan)%float = nan.
Proof. nan_operand mul_spec. Qed.
Lemma div_nan_l y : (nan / y)%float = nan.
Proof. nan_operand div_spec. Qed.
Lemma abs_nan : abs nan = nan.
Proof. reflexivity. Qed.

Lemma ltb_nan_l y : (nan <? y)%float = false.
Proof.
  rewrite ltb_spec. change (Prim2SF nan) with S754_nan. reflexivity.
Qed.

Lemma ltb_nan_r x : (x <? nan)%float = false.
Proof.
  rewrite ltb_spec. change (Prim2SF nan) with S754_nan.
  unfold SFltb, SFcompare. destruct (Prim2SF x) as [?|?| |? ? ?]; reflexivity.
Qed.

Create Rewrite HintDb nan_cuts.
#[local] Hint Rewrite add_nan_l add_nan_r sub_nan_l sub_nan_r mul_nan_r
  div_nan_l abs_nan ltb_nan_l ltb_nan_r
  andb_false_r andb_false_l : nan_cuts.

Lemma LOWZ_row_nan (row : CatalogRow) :
  cmodelmag_r row = nan \/ psfmag_r row = nan \/ modelmag_g row = nan
  \/ modelmag_r row = nan \/ modelmag_i row = nan ->
  LOWZ_row row (spec_aux row) = false.
Proof.
  unfold LOWZ_row, spec_aux, spec_c_par, spec_c_perp, gtb.
  cbn [c_par c_perp d_perp].
  intros [H|[H|[H|[H|H]]]]; rewrite H; now autorewrite with nan_cuts.
Qed.

Lemma CMASS_row_nan (row : CatalogRow) :
  cmodelmag_i row = nan \/ psfmag_i row = nan \/ psfmag_z row = nan
  \/ fiber2mag_i row = nan \/ devrad_i row = nan
  \/ modelmag_g row = nan \/ modelmag_r row = nan \/ modelmag_i row = nan
  \/ modelmag_z row = nan ->
  CMASS_row row (spec_aux row) (spec_r_dev_i row) = false.
Proof.
  unfold CMASS_row, spec_aux, spec_d_perp, spec_r_dev_i, gtb.
  cbn [c_par c_perp d_perp].
  intros [H|[H|[H|[H|[H|[H|[H|[H|H]]]]]]]]; rewrite H;
    now autorewrite with nan_cuts.
Qed.



(** ** Formatted integers and the paths of files *)

Lemma numeric_app (s t : string) :
  numeric (s +:+ t) = numeric s && numeric t.
Proof.
  induction s as [|a s IH]; [reflexivity|].
  change (is_num_char a && numeric (s +:+ t)
          = is_num_char a && numeric s && numeric t).
  now rewrite IH, andb_assoc.
Qed.

Lemma numeric_zeros (k : nat) : numeric (zeros k) = true.
Proof. induction k as [|k IH]; [reflexivity | exact IH]. Qed.

Lemma numeric_string_of_uint (d : Decimal.uint) :
  numeric (NilEmpty.string_of_uint d) = true.
Proof. induction d; cbn; auto. Qed.

Lemma numeric_digits (n : N) : numeric (digits n) = true.
Proof.
  unfold digits, NilZero.string_of_uint.
  destruct (N.to_uint n); try reflexivity; apply numeric_string_of_uint.
Qed.

Lemma numeric_fmt_d (width : nat) (z : Z) : numeric (fmt_d width z) = true.
Proof.
  unfold fmt_d, zfill. destruct (z <? 0)%Z; cbn [String.append numeric];
    rewrite ?numeric_app, numeric_zeros, numeric_digits; reflexivity.
Qed.

Lemma numeric_occurs (c : Ascii.ascii) (s : string) :
  is_num_char c = false -> numeric s = true -> ~ occurs c s.
Proof.
  intros Hc. induction s as [|a s IH]; cbn; [tauto|].
  intros [Ha Hs]%andb_true_iff [->|H]; [congruence | now apply IH].
Qed.

(** Two strings free of a separator are determined by what they form when
    followed by it. *)
Lemma split_at (c : Ascii.ascii) (s s' t t' : string) :
  ~ occurs c s -> ~ occurs c s' ->
  s +:+ String c t = s' +:+ String c t' -> s = s' /\ t = t'.
Proof.
  revert s'. induction s as [|a s IH]; intros [|a' s']; cbn.
  - intros _ _ [= ->]. auto.
  - intros _ H [= <- _]. tauto.
  - intros H _ [= -> _]. tauto.
  - intros H H' [= <- E].
    destruct (IH s') as [-> ->]; [tauto | tauto | exact E | auto].
Qed.

Lemma parse_nat_zeros (k : nat) (s : string) :
  parse_nat (zeros k +:+ s) = parse_nat s.
Proof.
  induction k as [|k IH]; [reflexivity|].
  change (zeros (S k) +:+ s) with (String "0"%char (zeros k +:+ s)).
  rewrite <- IH. unfold parse_nat. cbn [NilEmpty.uint_of_string].
  destruct (NilEmpty.uint_of_string (zeros k +:+ s)) as [d|]; reflexivity.
Qed.

Lemma parse_nat_digits (n : N) : parse_nat (digits n) = n.
Proof.
  pose proof (DecimalN.Unsigned.of_to n) as H.
  unfold parse_nat, digits, NilZero.string_of_uint.
  destruct (N.to_uint n) as [|d|d|d|d|d|d|d|d|d|d] eqn:E; rewrite <- H;
    [reflexivity | rewrite NilEmpty.usu; reflexivity ..].
Qed.

Lemma parse_nat_zfill (width : nat) (n : N) :
  parse_nat (zfill width (digits n)) = n.
Proof. unfold zfill. now rewrite parse_nat_zeros, parse_nat_digits. Qed.

Lemma uint_of_zfill (width : nat) (n : N) :
  is_Some (NilEmpty.uint_of_string (zfill width (digits n))).
Proof.
  unfold zfill. induction (width - String.length (digits n)) as [|k IH].
  - change (zeros 0 +:+ digits n) with (digits n).
    unfold digits, NilZero.string_of_uint.
    destruct (N.to_uint n); [eexists; reflexivity | rewrite NilEmpty.usu; eauto ..].
  - change (zeros (S k) +:+ digits n)
      with (String "0"%char (zeros k +:+ digits n)).
    cbn [NilEmpty.uint_of_string]. destruct IH as [d ->]. eexists; reflexivity.
Qed.

Lemma zfill_not_minus (width : nat) (n : N) (t : string) :
  zfill width (digits n) <> String "-"%char t.
Proof.
  intros E. pose proof (uint_of_zfill width n) as [d H].
  rewrite E in H. cbn in H.
  destruct (NilEmpty.uint_of_string t); discriminate H.
Qed.

Lemma fmt_d_reads_back (width width' : nat) (z z' : Z) :
  fmt_d width z = fmt_d width' z' -> z = z'.
Proof.
  unfold fmt_d.
  destruct (Z.ltb_spec z 0) as [Hz|Hz], (Z.ltb_spec z' 0) as [Hz'|Hz'];
    intros E.
  - apply (inj (String.append "-")) in E. apply (f_equal parse_nat) in E.
    rewrite !parse_nat_zfill in E. lia.
  - symmetry in E. now apply zfill_not_minus in E.
  - now apply zfill_not_minus in E.
  - apply (f_equal parse_nat) in E. rewrite !parse_nat_zfill in E. lia.
Qed.

(** X4.  Decimal formatting loses nothing: whatever the widths of the two
    fields, two integers printed alike are equal (zero padding never
    truncates, and the sign is kept). *)
Theorem fmt_d_inj (width width' : nat) (z z' : Z) :
  fmt_d width z = fmt_d width' z' -> z = z'.
Proof. apply fmt_d_reads_back. Qed.

Lemma fmt_d_inj_witness :
  fmt_d 4 13 = fmt_d 4 13 /\ (13 = 13)%Z.
Proof.
  split; [reflexivity|]. exact (fmt_d_inj 4 4 13 13 eq_refl).
Defined.

Lemma fmt_d_free (c : Ascii.ascii) (width : nat) (z : Z) :
  is_num_char c = false -> ~ occurs c (fmt_d width z).
Proof. intros Hc. apply numeric_occurs; [exact Hc | apply numeric_fmt_d]. Qed.

Lemma frame_path_determines (sas : string) (run camcol field : Z)
    (band : string) (run' camcol' field' : Z) (band' : string) :
  ~ occurs "-" band -> ~ occurs "-" band' ->
  frame_path sas run camcol band field
    = frame_path sas run' camcol' band' field' ->
  run = run' /\ camcol = camcol' /\ field = field' /\ band = band'.
Proof.
  intros Hb Hb' E. unfold frame_path in E.
  apply (inj (String.append sas)) in E.
  apply (inj (String.append "eboss/photoObj/frames/301/")) in E.
  apply (split_at "/") in E as [Erun E]; try (now apply fmt_d_free).
  apply fmt_d_reads_back in Erun as <-.
  apply (split_at "/") in E as [Ecam E]; try (now apply fmt_d_free).
  apply fmt_d_reads_back in Ecam as <-.
  apply (inj (String.append "frame-")) in E.
  apply (split_at "-") in E as [<- E]; [|assumption..].
  apply (inj (String.append (fmt_d 6 run))) in E.
  apply (inj (String.append "-")) in E.
  apply (inj (String.append (fmt_d 0 camcol))) in E.
  apply (inj (String.append "-")) in E.
  apply (split_at ".") in E as [Efield _]; try (now apply fmt_d_free).
  apply fmt_d_reads_back in Efield as <-. auto.
Qed.

(** X5.  The cache key tells frames apart: under one data root, and for bands
    without a dash (u, g, r, i and z are such), two frame paths are equal
    only for the same run, column, field and band. *)
Theorem frame_path_inj (sas : string) (run camcol field : Z) (band : string)
    (run' camcol' field' : Z) (band' : string) :
  ~ occurs "-" band -> ~ occurs "-" band' ->
  frame_path sas run camcol band field
    = frame_path sas run' camcol' band' field' ->
  run = run' /\ camcol = camcol' /\ field = field' /\ band = band'.
Proof. apply frame_path_determines. Qed.

Lemma frame_path_inj_witness :
  ~ occurs "-" "r"
  /\ frame_path default_sas 6122 1 "r" 13 = frame_path default_sas 6122 1 "r" 13
  /\ (6122 = 6122)%Z /\ (1 = 1)%Z /\ (13 = 13)%Z /\ "r" = "r".
Proof.
  assert (H : ~ occurs "-" "r") by (cbn; intros [[=]|[]]).
  split; [exact H|]. split; [reflexivity|].
  exact (frame_path_inj default_sas 6122 1 13 "r" 6122 1 13 "r" H H eq_refl).
Defined.

(** X6.  Under one data root and one reduction, two spectrum paths are equal only
    for the same plate and the same MJD. *)
Theorem spectrum_path_inj (sas run2d : string) (plate mjd plate' mjd' : Z) :
  spectrum_path sas run2d plate mjd = spectrum_path sas run2d plate' mjd' ->
  plate = plate' /\ mjd = mjd'.
Proof.
  intros E. unfold spectrum_path in E.
  apply (inj (String.append sas)) in E.
  apply (inj (String.append "sdss/spectro/redux/")) in E.
  apply (inj (String.append run2d)) in E.
  apply (inj (String.append "/")) in E.
  apply (split_at "/") in E as [Eplate E]; try (now apply fmt_d_free).
  apply fmt_d_reads_back in Eplate as <-.
  apply (inj (String.append "spPlate-")) in E.
  apply (inj (String.append (fmt_d 4 plate))) in E.
  apply (inj (String.append "-")) in E.
  apply (split_at ".") in E as [Emjd _]; try (now apply fmt_d_free).
  apply fmt_d_reads_back in Emjd as <-. auto.
Qed.

Lemma spectrum_path_inj_witness :
  spectrum_path default_sas default_run2d 4202 55445
    = spectrum_path default_sas default_run2d 4202 55445
  /\ (4202 = 4202)%Z /\ (55445 = 55445)%Z.
Proof.
  split; [reflexivity|].
  exact (spectrum_path_inj default_sas default_run2d 4202 55445 4202 55445
           eq_refl).
Defined.

(** ** The process: requests, failures and what the cache holds *)

Lemma getrow_errors (d : image) (idx : Z) (e : exn) :
  getrow d idx = Raises e -> e = IndexError \/ e = TypeError.
Proof.
  unfold getrow. destruct d as [rows|]; [|intros [= <-]; auto].
  destruct (_ && _); [|intros [= <-]; auto].
  destruct (rows !! _); [discriminate | intros [= <-]; auto].
Qed.

Section ProcessFacts.

Variable np_log : float -> float.
Variable np_arcsinh : float -> float.
Variable np_power : float -> float -> float.
Variable storage : nat -> string -> outcome bytes.
Variable fits_open : bytes -> outcome (list HDU).
Variable bz2_read : bytes -> outcome bytes.

Lemma extract_frame_miss_asks run camcol field band sas (w : world) :
  extract_frame_cache w !! frame_path sas run camcol band field = None ->
  requests (snd (extract_frame storage fits_open bz2_read
                   run camcol field band sas w))
  = requests w ++ [frame_path sas run camcol band field].
Proof.
  intros Hnone. rewrite extract_frame_unfold. cbv zeta. rewrite Hnone.
  destruct (storage _ _) as [raw|e1]; [|reflexivity].
  destruct (bz2_read raw) as [cf|e2]; [|reflexivity].
  destruct (fits_open cf) as [hdulist|e3]; [|reflexivity].
  destruct (hdulist !! 0) as [hdu0|]; reflexivity.
Qed.

(** X7.  A failed call of [extract_frame] caches nothing.  The path was not
    cached, the storage collaborator was asked once, the cache is as before,
    a failure of the collaborator is the failure of the call, and the same
    call made again asks the collaborator again. *)
Theorem extract_frame_failure_caches_nothing run camcol field band sas
    (w w' : world) (e : exn) :
  extract_frame storage fits_open bz2_read run camcol field band sas w
    = (Raises e, w') ->
  extract_frame_cache w !! frame_path sas run camcol band field = None
  /\ extract_frame_cache w' = extract_frame_cache w
  /\ requests w' = requests w ++ [frame_path sas run camcol band field]
  /\ (forall e0,
        storage (length (requests w)) (frame_path sas run camcol band field)
          = Raises e0 -> e = e0)
  /\ requests (snd (extract_frame storage fits_open bz2_read
                       run camcol field band sas w'))
     = requests w ++ [frame_path sas run camcol band field;
                      frame_path sas run camcol band field].
Proof.
  intros H.
  assert (Hmiss : extract_frame_cache w !! frame_path sas run camcol band field
                  = None
                  /\ w' = {| extract_frame_cache := extract_frame_cache w;
                             requests := requests w
                               ++ [frame_path sas run camcol band field] |}
                  /\ forall e0,
                       storage (length (requests w))
                         (frame_path sas run camcol band field) = Raises e0 ->
                       e = e0).
  { rewrite extract_frame_unfold in H. cbv zeta in H.
    destruct (extract_frame_cache w !! _) as [img|]; [discriminate|].
    split; [reflexivity|].
    destruct (storage _ _) as [raw|e1].
    - split; [|discriminate].
      destruct (bz2_read raw) as [cf|e2]; [|now injection H as _ <-].
      destruct (fits_open cf) as [hdulist|e3]; [|now injection H as _ <-].
      destruct (hdulist !! 0) as [hdu0|]; [discriminate|now injection H as _ <-].
    - injection H as <- <-. split; [reflexivity|]. now intros e0 [= <-]. }
  destruct Hmiss as (Hnone & -> & Herr).
  split; [exact Hnone|]. split; [reflexivity|]. split; [reflexivity|].
  split; [exact Herr|].
  rewrite extract_frame_miss_asks by exact Hnone.
  cbn [requests]. now rewrite <- app_assoc.
Qed.

(** X8.  A cached frame is never served for another one.  After a call for one
    frame has returned, a call for a different (run, camcol, field, band)
    whose own path is not cached goes to the storage collaborator. *)
Theorem other_frame_is_fetched sas run camcol field band
    run' camcol' field' band' (w w1 : world) (img : image) :
  ~ occurs "-" band -> ~ occurs "-" band' ->
  (run, camcol, field, band) <> (run', camcol', field', band') ->
  extract_frame_cache w !! frame_path sas run' camcol' band' field' = None ->
  extract_frame storage fits_open bz2_read run camcol field band sas w
    = (Returns img, w1) ->
  requests (snd (extract_frame storage fits_open bz2_read
                   run' camcol' field' band' sas w1))
  = requests w1 ++ [frame_path sas run' camcol' band' field'].
Proof.
  intros Hb Hb' Hne Hnone H.
  assert (Hpath : frame_path sas run camcol band field
                  <> frame_path sas run' camcol' band' field').
  { intros E. apply frame_path_determines in E as (-> & -> & -> & ->); auto. }
  assert (Hnone1 : extract_frame_cache w1
                     !! frame_path sas run' camcol' band' field' = None).
  { rewrite extract_frame_unfold in H. cbv zeta in H.
    destruct (extract_frame_cache w !! frame_path sas run camcol band field)
      as [img0|]; [now injection H as _ <-|].
    destruct (storage _ _) as [raw|e1]; [|discriminate].
    destruct (bz2_read raw) as [cf|e2]; [|discriminate].
    destruct (fits_open cf) as [hdulist|e3]; [|discriminate].
    destruct (hdulist !! 0) as [hdu0|]; [|discriminate].
    injection H as _ <-. cbn. now rewrite lookup_insert_ne. }
  now apply extract_frame_miss_asks.
Qed.

Lemma extract_spectrum_requests plate mjd fiber run2d sas (w : world) :
  requests (snd (extract_spectrum np_power storage fits_open
                   plate mjd fiber run2d sas w))
  = requests w ++ [spectrum_path sas run2d plate mjd].
Proof.
  unfold extract_spectrum, sc_get, lift, mbind, proc_bind.
  destruct (storage _ _) as [raw|e]; [|reflexivity].
  destruct (fits_open raw) as [hdulist|e]; reflexivity.
Qed.

(** X9.  [extract_spectrum] is not memoized.  Every call asks the storage
    collaborator exactly once, for the path of the plate, and leaves the
    frame cache alone, so the same call made twice asks twice; a failure of
    the collaborator or of the decoder is the failure of the call. *)
Theorem extract_spectrum_always_asks plate mjd fiber run2d sas (w : world) :
  let call := extract_spectrum np_power storage fits_open
                plate mjd fiber run2d sas in
  let path := spectrum_path sas run2d plate mjd in
  requests (snd (call w)) = requests w ++ [path]
  /\ extract_frame_cache (snd (call w)) = extract_frame_cache w
  /\ requests (snd (call (snd (call w)))) = requests w ++ [path; path]
  /\ (forall e, storage (length (requests w)) path = Raises e ->
                fst (call w) = Raises e)
  /\ (forall raw e, storage (length (requests w)) path = Returns raw ->
                    fits_open raw = Raises e -> fst (call w) = Raises e).
Proof.
  intros call path.
  assert (Hreq : forall v, requests (snd (call v)) = requests v ++ [path])
    by (intros v; apply extract_spectrum_requests).
  split; [apply Hreq|].
  split; [apply extract_spectrum_keeps_cache|].
  split; [now rewrite !Hreq, <- app_assoc|].
  split.
  - intros e He. unfold call, extract_spectrum, sc_get, lift, mbind, proc_bind.
    fold path. now rewrite He.
  - intros raw e Hs Hf.
    unfold call, extract_spectrum, sc_get, lift, mbind, proc_bind.
    fold path. now rewrite Hs, Hf.
Qed.

(** *** What a running process holds *)

Lemma perform_invariant (c : call) (w : world) :
  dom (extract_frame_cache w) ⊆ list_to_set (C := gset string) (requests w)
  /\ size (extract_frame_cache w) <= length (requests w) ->
  let w' := perform np_power storage fits_open bz2_read c w in
  dom (extract_frame_cache w') ⊆ list_to_set (C := gset string) (requests w')
  /\ size (extract_frame_cache w') <= length (requests w').
Proof.
  intros [Hdom Hsize].
  destruct c as [run camcol field band sas | plate mjd fiber run2d sas]; cbn.
  - rewrite extract_frame_unfold. cbv zeta.
    destruct (extract_frame_cache w !! _) as [img|] eqn:Hc; [auto|].
    assert (Hfail : dom (extract_frame_cache w)
                    ⊆ list_to_set (C := gset string)
                        (requests w ++ [frame_path sas run camcol band field])
                    /\ size (extract_frame_cache w)
                       <= length (requests w
                                  ++ [frame_path sas run camcol band field])).
    { rewrite list_to_set_app_L, length_app. split; [set_solver | lia]. }
    destruct (storage _ _) as [raw|e1]; [|exact Hfail].
    destruct (bz2_read raw) as [cf|e2]; [|exact Hfail].
    destruct (fits_open cf) as [hdulist|e3]; [|exact Hfail].
    destruct (hdulist !! 0) as [hdu0|]; [|exact Hfail].
    cbn. rewrite dom_insert_L, list_to_set_app_L, length_app,
      map_size_insert_None by exact Hc.
    split; [|cbn; lia].
    intros x [Hx|Hx]%elem_of_union.
    + apply elem_of_singleton in Hx as ->.
      apply elem_of_union_r, elem_of_list_to_set, list_elem_of_here.
    + apply elem_of_union_l, Hdom, Hx.
  - rewrite extract_spectrum_requests, extract_spectrum_keeps_cache,
      list_to_set_app_L, length_app.
    split; [set_solver | lia].
Qed.

(** X10.  In a process that started with an empty cache, whatever calls were made
    and however they ended, every cached path is a path the storage
    collaborator was asked for, and the cache holds no more frames than
    there were requests. *)
Theorem cache_holds_requested_frames (cs : list call) :
  let w := run_calls np_power storage fits_open bz2_read cs fresh_process in
  dom (extract_frame_cache w) ⊆ list_to_set (C := gset string) (requests w)
  /\ size (extract_frame_cache w) <= length (requests w).
Proof.
  cbv zeta.
  assert (H : forall w,
            dom (extract_frame_cache w)
              ⊆ list_to_set (C := gset string) (requests w)
            /\ size (extract_frame_cache w) <= length (requests w) ->
            dom (extract_frame_cache
                   (run_calls np_power storage fits_open bz2_read cs w))
              ⊆ list_to_set (C := gset string)
                  (requests (run_calls np_power storage fits_open bz2_read cs w))
            /\ size (extract_frame_cache
                       (run_calls np_power storage fits_open bz2_read cs w))
               <= length (requests
                            (run_calls np_power storage fits_open bz2_read cs w))).
  { induction cs as [|c cs IH]; intros w Hw; cbn; [exact Hw|].
    apply IH. now apply perform_invariant. }
  apply H. cbn. split; [set_solver | rewrite map_size_empty; lia].
Qed.

(** *** Files that cannot be read *)

(** X11.  A file with fewer than seven data blocks never yields a spectrum: the
    call raises [IndexError] (a missing block, or the row index) or
    [TypeError] (a block without data). *)
Theorem short_file_is_rejected plate mjd fiber run2d sas (w : world)
    (raw : bytes) (hdulist : list HDU) :
  storage (length (requests w)) (spectrum_path sas run2d plate mjd)
    = Returns raw ->
  fits_open raw = Returns hdulist ->
  length hdulist < 7 ->
  exists e w',
    extract_spectrum np_power storage fits_open plate mjd fiber run2d sas w
      = (Raises e, w')
    /\ (e = IndexError \/ e = TypeError).
Proof.
  intros Hs Hf Hlen.
  rewrite (extract_spectrum_run np_power storage fits_open
             plate mjd fiber run2d sas w raw hdulist Hs Hf).
  assert (H6 : hdulist !! 6 = None) by (apply lookup_ge_None; lia).
  unfold read_spectrum, hdulist_get. rewrite H6.
  destruct (hdulist !! 0) as [h0|]; [|eexists _, _; split; [reflexivity | auto]].
  cbn [mbind outcome_bind].
  destruct (getrow (data h0) (fiber - 1)) as [f|e] eqn:G0;
    [|eexists _, _; split; [reflexivity | exact (getrow_errors _ _ _ G0)]].
  cbn [mbind outcome_bind].
  destruct (hdulist !! 1) as [h1|]; [|eexists _, _; split; [reflexivity | auto]].
  cbn [mbind outcome_bind].
  destruct (getrow (data h1) (fiber - 1)) as [iv|e] eqn:G1;
    [|eexists _, _; split; [reflexivity | exact (getrow_errors _ _ _ G1)]].
  eexists _, _; split; [reflexivity | auto].
Qed.

(** X12.  The calibration cards are read after the three rows.  On a file whose
    blocks 0, 1 and 6 give a row for the fiber, the call raises [KeyError]
    with the name of the first card missing from the header of block 0, in
    the order COEFF0, COEFF1, NAXIS1. *)
Theorem missing_card_is_KeyError plate mjd fiber run2d sas (w : world)
    (raw : bytes) (hdulist : list HDU) (hdu0 hdu1 hdu6 : HDU) (nrows N : nat) :
  storage (length (requests w)) (spectrum_path sas run2d plate mjd)
    = Returns raw ->
  fits_open raw = Returns hdulist ->
  hdulist !! 0 = Some hdu0 -> hdulist !! 1 = Some hdu1 ->
  hdulist !! 6 = Some hdu6 ->
  block_shape hdu0 nrows N -> block_shape hdu1 nrows N ->
  block_shape hdu6 nrows N ->
  (- Z.of_nat nrows <= fiber - 1 < Z.of_nat nrows)%Z ->
  let result := fst (extract_spectrum np_power storage fits_open
                       plate mjd fiber run2d sas w) in
  (COEFF0 (header hdu0) = None -> result = Raises (KeyError "COEFF0"))
  /\ (is_Some (COEFF0 (header hdu0)) -> COEFF1 (header hdu0) = None ->
        result = Raises (KeyError "COEFF1"))
  /\ (is_Some (COEFF0 (header hdu0)) -> is_Some (COEFF1 (header hdu0)) ->
        NAXIS1 (header hdu0) = None -> result = Raises (KeyError "NAXIS1")).
Proof.
  intros Hs Hf H0 H1 H6 B0 B1 B6 Hfiber result. subst result.
  rewrite (extract_spectrum_run np_power storage fits_open
             plate mjd fiber run2d sas w raw hdulist Hs Hf). cbn [fst].
  destruct (getrow_in_range _ _ _ _ B0 Hfiber) as (flux & Gf & _).
  destruct (getrow_in_range _ _ _ _ B1 Hfiber) as (ivar & Gi & _).
  destruct (getrow_in_range _ _ _ _ B6 Hfiber) as (sky & Gs & _).
  unfold read_spectrum, hdulist_get.
  rewrite H0, H1, H6. cbn [mbind outcome_bind].
  rewrite Gf, Gi, Gs. cbn [mbind outcome_bind].
  split; [intros ->; reflexivity|].
  split.
  - intros [c0 ->] ->. reflexivity.
  - intros [c0 ->] [c1 ->] ->. reflexivity.
Qed.

(** X13.  All fibers of a plate share one wavelength grid: two successful
    extractions from the same file, for any two fibers, return the same
    wavelength array. *)
Theorem wavelength_grid_is_shared plate mjd fiber fiber' run2d sas
    (w w1 w1' : world) wavelength flux ivar sky wavelength' flux' ivar' sky' :
  extract_spectrum np_power storage fits_open plate mjd fiber run2d sas w
    = (Returns (wavelength, flux, ivar, sky), w1) ->
  extract_spectrum np_power storage fits_open plate mjd fiber' run2d sas w
    = (Returns (wavelength', flux', ivar', sky'), w1') ->
  wavelength = wavelength'.
Proof.
  unfold extract_spectrum, sc_get, lift, mbind, proc_bind.
  destruct (storage _ _) as [raw|e]; [|discriminate].
  destruct (fits_open raw) as [hdulist|e]; [|discriminate].
  unfold read_spectrum, hdulist_get.
  destruct (hdulist !! 0) as [h0|]; [|discriminate]. cbn [mbind outcome_bind].
  destruct (getrow (data h0) (fiber - 1)) as [f|]; [|discriminate].
  destruct (getrow (data h0) (fiber' - 1)) as [f'|]; [|discriminate].
  cbn [mbind outcome_bind].
  destruct (hdulist !! 1) as [h1|]; [|discriminate]. cbn [mbind outcome_bind].
  destruct (getrow (data h1) (fiber - 1)) as [iv|]; [|discriminate].
  destruct (getrow (data h1) (fiber' - 1)) as [iv'|]; [|discriminate].
  cbn [mbind outcome_bind].
  destruct (hdulist !! 6) as [h6|]; [|discriminate]. cbn [mbind outcome_bind].
  destruct (getrow (data h6) (fiber - 1)) as [sk|]; [|discriminate].
  destruct (getrow (data h6) (fiber' - 1)) as [sk'|]; [|discriminate].
  cbn [mbind outcome_bind].
  destruct (COEFF0 (header h0)) as [c0|]; [|discriminate].
  destruct (COEFF1 (header h0)) as [c1|]; [|discriminate].
  destruct (NAXIS1 (header h0)) as [n|]; [|discriminate].
  cbn. intros [= <- _ _ _ _] [= <- _ _ _ _]. reflexivity.
Qed.

(** *** Plotting a spectrum *)

Lemma plot_spectrum_unfold plate mjd fiber showsky run2d sas (w : world) :
  plot_spectrum np_power storage fits_open plate mjd fiber showsky run2d sas w
  = match extract_spectrum np_power storage fits_open
            plate mjd fiber run2d sas w with
    | (Raises e, w') => (Raises e, w')
    | (Returns (wavelength, flux, ivar, sky), w') =>
        (p0 ← ax_plot (Array wavelength) (Array flux) "OBJECT";
         drawn ← (if showsky
                  then p1 ← ax_plot (Array wavelength) (Array sky) "SKY";
                       mret [p0; p1]
                  else mret [p0]);
         mret {| lines := drawn;
                 title := fmt_d 4 plate +:+ "-" +:+ fmt_d 5 mjd +:+ "-" +:+
                          fmt_d 4 fiber |},
         w')
    end.
Proof.
  unfold plot_spectrum, mbind at 1, proc_bind.
  destruct (extract_spectrum _ _ _ _ _ _ _ _ w)
    as [[[[[wavelength flux] ivar] sky]|e] w']; [|reflexivity].
  unfold lift, mbind, proc_bind, mret, proc_ret.
  destruct (ax_plot (Array wavelength) (Array flux) "OBJECT") as [p0|e];
    [|reflexivity].
  destruct showsky; [|reflexivity].
  destruct (ax_plot (Array wavelength) (Array sky) "SKY") as [p1|e];
    reflexivity.
Qed.

(** X14.  On a well-formed file and for a fiber between 1 and num_rows,
    [plot_spectrum] draws: the OBJECT line pairs the N wavelengths with the
    N flux samples, the SKY line is added exactly when [showsky] is set, and
    the title is plate-mjd-fiber, zero padded. *)
Theorem plot_spectrum_draws plate mjd fiber showsky run2d sas (w : world)
    (raw : bytes) (hdulist : list HDU) (nrows N : nat) (c0 c1 : float) :
  storage (length (requests w)) (spectrum_path sas run2d plate mjd)
    = Returns raw ->
  fits_open raw = Returns hdulist ->
  well_formed_plate hdulist nrows N c0 c1 ->
  (1 <= fiber <= Z.of_nat nrows)%Z ->
  exists wavelength flux ivar sky w',
    extract_spectrum np_power storage fits_open plate mjd fiber run2d sas w
      = (Returns (wavelength, flux, ivar, sky), w')
    /\ plot_spectrum np_power storage fits_open
         plate mjd fiber showsky run2d sas w
       = (Returns
            {| lines :=
                 {| xdata := wavelength; ydata := flux; label := "OBJECT" |}
                 :: (if showsky
                     then [{| xdata := wavelength; ydata := sky;
                              label := "SKY" |}]
                     else []);
               title := fmt_d 4 plate +:+ "-" +:+ fmt_d 5 mjd +:+ "-" +:+
                        fmt_d 4 fiber |},
          w')
    /\ length wavelength = N /\ length flux = N /\ length sky = N.
Proof.
  intros Hs Hf Hwf Hfiber.
  destruct (read_spectrum_well_formed np_power _ _ _ _ _ fiber Hwf)
    as (flux & ivar & sky & Hr & Lf & Li & Ls); [lia|].
  pose proof (extract_spectrum_run np_power storage fits_open
                plate mjd fiber run2d sas w raw hdulist Hs Hf) as Hrun.
  rewrite Hr in Hrun.
  eexists _, flux, ivar, sky, _. split; [exact Hrun|].
  assert (Lw : length (np_power 10 <$>
                 ((fun x => c0 + c1 * x)%float <$> np_arange (Z.of_nat N))) = N)
    by now rewrite !length_fmap, np_arange_length.
  split; [|auto].
  rewrite plot_spectrum_unfold, Hrun. unfold ax_plot. cbn [atleast_1d].
  rewrite Lw, Lf, Ls, Nat.eqb_refl. destruct showsky; reflexivity.
Qed.


(** *** Displaying a frame *)

Lemma display_frame_unfold run camcol field band asinh invert sas (w : world) :
  display_frame np_log np_arcsinh storage fits_open bz2_read
    run camcol field band asinh invert sas w
  = match extract_frame storage fits_open bz2_read
            run camcol field band sas w with
    | (Raises e, w') => (Raises e, w')
    | (Returns img, w') =>
        (scaled ← (if asinh
                   then a ← asinh_frame np_log np_arcsinh img band;
                        mret (a, (26, 18)%float)
                   else mret (img, (0.0, 1.0)%float));
         im ← imshow (fst scaled);
         mret {| shown := im;
                 cmap := if invert then "gray" else "gray_r";
                 clim := snd scaled;
                 frame_title :=
                   "frame-" +:+ band +:+ "-" +:+ fmt_d 6 run +:+ "-" +:+
                   fmt_d 0 camcol +:+ "-" +:+ fmt_d 4 field +:+ ".fits" |},
         w')
    end.
Proof.
  unfold display_frame, mbind at 1, proc_bind.
  destruct (extract_frame _ _ _ _ _ _ _ _ w) as [[img|e] w']; [|reflexivity].
  unfold lift, mbind, proc_bind, mret, proc_ret.
  destruct asinh.
  - destruct (asinh_frame np_log np_arcsinh img band) as [a|e]; [|reflexivity].
    cbn. destruct (imshow a); reflexivity.
  - cbn. destruct (imshow img); reflexivity.
Qed.

Lemma extract_frame_returns_cached run camcol field band sas (w w1 : world)
    (img : image) :
  extract_frame storage fits_open bz2_read run camcol field band sas w
    = (Returns img, w1) ->
  extract_frame_cache w1 !! frame_path sas run camcol band field = Some img.
Proof.
  rewrite extract_frame_unfold. cbv zeta.
  destruct (extract_frame_cache w !! _) as [img0|] eqn:Hc.
  { now intros [= <- <-]. }
  destruct (storage _ _) as [raw|e]; [|discriminate].
  destruct (bz2_read raw) as [cf|e]; [|discriminate].
  destruct (fits_open cf) as [hdulist|e]; [|discriminate].
  destruct (hdulist !! 0) as [hdu0|]; [|discriminate].
  intros [= <- <-]. cbn. apply lookup_insert_eq.
Qed.

(** X16.  Displaying a frame again costs no fetch.  When [display_frame] returns,
    the process is as [extract_frame] left it, the cache holds the frame in
    linear flux (the array shown when [asinh] is off, the array whose asinh
    magnitudes are shown when it is on), and any later display of the same
    frame, with any [asinh] and [invert], leaves the process unchanged: no
    storage request. *)
Theorem display_frame_fetches_once run camcol field band asinh invert sas
    (w w1 : world) (d : FrameDisplay) :
  display_frame np_log np_arcsinh storage fits_open bz2_read
    run camcol field band asinh invert sas w = (Returns d, w1) ->
  w1 = snd (extract_frame storage fits_open bz2_read
              run camcol field band sas w)
  /\ (exists a : list (list float),
        extract_frame_cache w1 !! frame_path sas run camcol band field
          = Some (Some a)
        /\ if asinh
           then asinh_image np_log np_arcsinh a band = Returns (shown d)
           else shown d = a)
  /\ (forall asinh' invert' : bool,
        snd (display_frame np_log np_arcsinh storage fits_open bz2_read
               run camcol field band asinh' invert' sas w1) = w1).
Proof.
  rewrite display_frame_unfold.
  destruct (extract_frame _ _ _ _ _ _ _ _ w) as [[img|e] w0] eqn:Hx;
    [|discriminate].
  intros H. assert (w0 = w1) as -> by now injection H.
  pose proof (extract_frame_returns_cached _ _ _ _ _ _ _ _ Hx) as Hc.
  split; [reflexivity|]. split.
  - destruct asinh.
    + destruct img as [a|]; [|discriminate]. cbn in H.
      destruct (asinh_image np_log np_arcsinh a band) as [a'|e] eqn:Ha;
        [|discriminate].
      cbn in H. injection H as <-. exists a. auto.
    + destruct img as [a|]; [|discriminate]. cbn in H.
      injection H as <-. exists a. auto.
  - intros asinh' invert'. rewrite display_frame_unfold.
    rewrite (extract_frame_hit storage fits_open bz2_read _ _ _ _ _ _ _ Hc).
    reflexivity.
Qed.

(** X17.  The band is checked after the fetch.  With [asinh] on and a band outside
    the table, [display_frame] raises [KeyError] only once [extract_frame]
    has returned the frame: the storage request is made and the frame is
    cached all the same. *)
Theorem display_frame_unknown_band run camcol field band invert sas
    (w w1 : world) (a : list (list float)) :
  band ∉ ["u"; "g"; "r"; "i"; "z"] ->
  extract_frame storage fits_open bz2_read run camcol field band sas w
    = (Returns (Some a), w1) ->
  display_frame np_log np_arcsinh storage fits_open bz2_read
    run camcol field band true invert sas w = (Raises (KeyError band), w1)
  /\ extract_frame_cache w1 !! frame_path sas run camcol band field
     = Some (Some a).
Proof.
  intros Hband Hx.
  split; [|exact (extract_frame_returns_cached _ _ _ _ _ _ _ _ Hx)].
  rewrite display_frame_unfold, Hx. unfold asinh_frame, asinh_image.
  rewrite (softening_unknown _ Hband). reflexivity.
Qed.

(** X19.  A frame file without image data is memoized like any other.
    [extract_frame] returns and caches [None]; [display_frame] then raises
    [TypeError], and so does every later display of the frame, without a
    new storage request: unlike a failed fetch, this failure is never
    retried. *)
Theorem dataless_frame_failure_is_cached run camcol field band asinh invert
    sas (w w1 : world) :
  extract_frame storage fits_open bz2_read run camcol field band sas w
    = (Returns None, w1) ->
  display_frame np_log np_arcsinh storage fits_open bz2_read
    run camcol field band asinh invert sas w = (Raises TypeError, w1)
  /\ extract_frame_cache w1 !! frame_path sas run camcol band field
     = Some None
  /\ (forall asinh' invert' : bool,
        display_frame np_log np_arcsinh storage fits_open bz2_read
          run camcol field band asinh' invert' sas w1
        = (Raises TypeError, w1)).
Proof.
  intros Hx.
  pose proof (extract_frame_returns_cached _ _ _ _ _ _ _ _ Hx) as Hc.
  split; [rewrite display_frame_unfold, Hx; now destruct asinh|].
  split; [exact Hc|].
  intros asinh' invert'. rewrite display_frame_unfold.
  rewrite (extract_frame_hit storage fits_open bz2_read _ _ _ _ _ _ _ Hc).
  now destruct asinh'.
Qed.

Lemma append_assoc (s t u : string) : (s +:+ t) +:+ u = s +:+ t +:+ u.
Proof.
  induction s as [|a s IH]; [reflexivity|].
  change (String a ((s +:+ t) +:+ u) = String a (s +:+ t +:+ u)).
  now rewrite IH.
Qed.

(** X18.  The title names the file displayed: the frame path is the data root,
    the directory of the run and the column, the title, and ".bz2". *)
Theorem display_frame_title_is_file_name run camcol field band asinh invert
    sas (w w1 : world) (d : FrameDisplay) :
  display_frame np_log np_arcsinh storage fits_open bz2_read
    run camcol field band asinh invert sas w = (Returns d, w1) ->
  frame_path sas run camcol band field
  = sas +:+ "eboss/photoObj/frames/301/" +:+ fmt_d 0 run +:+ "/" +:+
    fmt_d 0 camcol +:+ "/" +:+ frame_title d +:+ ".bz2".
Proof.
  rewrite display_frame_unfold.
  destruct (extract_frame _ _ _ _ _ _ _ _ w) as [[img|e] w0]; [|discriminate].
  intros H.
  assert (Ht : frame_title d
               = "frame-" +:+ band +:+ "-" +:+ fmt_d 6 run +:+ "-" +:+
                 fmt_d 0 camcol +:+ "-" +:+ fmt_d 4 field +:+ ".fits").
  { destruct asinh.
    - destruct (asinh_frame np_log np_arcsinh img band) as [a'|]; [|discriminate].
      cbn in H. destruct (imshow a'); [|discriminate]. now injection H as <-.
    - cbn in H. destruct (imshow img); [|discriminate]. now injection H as <-. }
  rewrite Ht. unfold frame_path.
  rewrite !append_assoc. reflexivity.
Qed.

End ProcessFacts.

(** ** Runs of the process theorems on the sample files *)

Lemma extract_frame_failure_caches_nothing_witness :
  let call := extract_frame offline_storage (decodes_to sample_frame)
                bz2_identity 6122 1 13 "r" default_sas in
  let path := frame_path default_sas 6122 1 "r" 13 in
  call fresh_process = (Raises (RemoteError path), snd (call fresh_process))
  /\ extract_frame_cache (snd (call fresh_process)) = ∅
  /\ requests (snd (call (snd (call fresh_process)))) = [path; path].
Proof.
  intros call path.
  assert (H : call fresh_process
              = (Raises (RemoteError path), snd (call fresh_process))).
  { vm_compute. reflexivity. }
  split; [exact H|].
  destruct (extract_frame_failure_caches_nothing offline_storage
              (decodes_to sample_frame) bz2_identity 6122 1 13 "r" default_sas
              fresh_process _ _ H) as (_ & Hcache & _ & _ & Hagain).
  split; [exact Hcache | exact Hagain].
Defined.

Lemma other_frame_is_fetched_witness :
  let first := extract_frame online_storage (decodes_to sample_frame)
                 bz2_identity 6122 1 13 "r" default_sas in
  let other := extract_frame online_storage (decodes_to sample_frame)
                 bz2_identity 6122 1 13 "g" default_sas in
  (6122, 1, 13, "r")%Z <> (6122, 1, 13, "g")%Z
  /\ requests (snd (other (snd (first fresh_process))))
     = [frame_path default_sas 6122 1 "r" 13;
        frame_path default_sas 6122 1 "g" 13].
Proof.
  intros first other.
  assert (Hne : (6122, 1, 13, "r")%Z <> (6122, 1, 13, "g")%Z) by discriminate.
  split; [exact Hne|].
  assert (Hr : ~ occurs "-" "r") by (cbn; intros [[=]|[]]).
  assert (Hg : ~ occurs "-" "g") by (cbn; intros [[=]|[]]).
  assert (H : first fresh_process
              = (Returns (Some [[0; 1]; [2; 3]]%float),
                 snd (first fresh_process))).
  { vm_compute. reflexivity. }
  pose proof (other_frame_is_fetched online_storage (decodes_to sample_frame)
                bz2_identity default_sas 6122 1 13 "r" 6122 1 13 "g"
                fresh_process _ _ Hr Hg Hne (lookup_empty _) H) as Hreq.
  fold other in Hreq. rewrite Hreq. vm_compute. reflexivity.
Defined.

Lemma short_file_is_rejected_witness :
  length five_block_plate < 7
  /\ exists e w',
       extract_spectrum stub_power online_storage (decodes_to five_block_plate)
         4202 55445 1 default_run2d default_sas fresh_process = (Raises e, w')
       /\ (e = IndexError \/ e = TypeError).
Proof.
  assert (H : length five_block_plate < 7) by (cbn; lia).
  split; [exact H|].
  exact (short_file_is_rejected stub_power online_storage
           (decodes_to five_block_plate) 4202 55445 1 default_run2d default_sas
           fresh_process [] five_block_plate eq_refl eq_refl H).
Defined.

Lemma sample_block_shapes :
  block_shape (block 4 flux_rows) 2 4 /\ block_shape (block 4 ivar_rows) 2 4
  /\ block_shape (block 4 sky_rows) 2 4.
Proof.
  repeat split;
    (eexists; split; [reflexivity|]; split; [reflexivity|]; repeat constructor).
Qed.

Lemma missing_card_is_KeyError_witness :
  fst (extract_spectrum stub_power online_storage (decodes_to no_coeff1_plate)
         4202 55445 1 default_run2d default_sas fresh_process)
  = Raises (KeyError "COEFF1").
Proof.
  destruct sample_block_shapes as (B0 & B1 & B6).
  assert (B0' : block_shape
                  {| header := {| COEFF0 := Some 3.5%float; COEFF1 := None;
                                  NAXIS1 := Some 4%Z |};
                     data := Some flux_rows |} 2 4).
  { destruct B0 as (rows & Hd & Hl & Hall). exists rows. auto. }
  refine (proj1 (proj2 (missing_card_is_KeyError stub_power online_storage
                          (decodes_to no_coeff1_plate) 4202 55445 1
                          default_run2d default_sas fresh_process []
                          no_coeff1_plate _ _ _ 2 4
                          eq_refl eq_refl eq_refl eq_refl eq_refl
                          B0' B1 B6 _)) _ eq_refl).
  - lia.
  - eexists. reflexivity.
Defined.

Lemma wavelength_grid_is_shared_witness :
  let call fiber := extract_spectrum stub_power online_storage
                      (decodes_to sample_plate) 4202 55445 fiber
                      default_run2d default_sas fresh_process in
  exists wavelength flux ivar sky wavelength' flux' ivar' sky' w1,
    call 1%Z = (Returns (wavelength, flux, ivar, sky), w1)
    /\ call 2%Z = (Returns (wavelength', flux', ivar', sky'), w1)
    /\ wavelength = wavelength' /\ flux <> flux'.
Proof.
  intros call.
  assert (H1 : call 1%Z
               = (Returns ([3.5; 3.5001; 3.5002; 3.5003]%float,
                           [1.5; 2.5; 3.5; 4.5]%float,
                           [0.1; 0.2; 0.3; 0.4]%float,
                           [10; 20; 30; 40]%float), snd (call 1%Z))).
  { vm_compute. reflexivity. }
  assert (H2 : call 2%Z
               = (Returns ([3.5; 3.5001; 3.5002; 3.5003]%float,
                           [5.5; 6.5; 7.5; 8.5]%float,
                           [0.5; 0.6; 0.7; 0.8]%float,
                           [50; 60; 70; 80]%float), snd (call 1%Z))).
  { vm_compute. reflexivity. }
  eexists _, _, _, _, _, _, _, _, _.
  split; [exact H1|]. split; [exact H2|].
  split; [|discriminate].
  exact (wavelength_grid_is_shared stub_power online_storage
           (decodes_to sample_plate) 4202 55445 1 2 default_run2d
           default_sas fresh_process _ _ _ _ _ _ _ _ _ _ H1 H2).
Defined.

Lemma plot_spectrum_draws_witness :
  exists wavelength flux sky w',
    plot_spectrum stub_power online_storage (decodes_to sample_plate)
      4202 55445 1 true default_run2d default_sas fresh_process
    = (Returns
         {| lines := [{| xdata := wavelength; ydata := flux;
                         label := "OBJECT" |};
                      {| xdata := wavelength; ydata := sky; label := "SKY" |}];
            title := "4202-55445-0001" |},
       w')
    /\ length wavelength = 4 /\ length flux = 4 /\ length sky = 4.
Proof.
  destruct (plot_spectrum_draws stub_power online_storage
              (decodes_to sample_plate) 4202 55445 1 true default_run2d
              default_sas fresh_process [] sample_plate 2 4 3.5 0.0001
              eq_refl eq_refl sample_plate_well_formed)
    as (wl & flux & ivar & sky & w' & _ & Hplot & Hlen); [lia|].
  exists wl, flux, sky, w'. split; [exact Hplot | exact Hlen].
Defined.


Lemma display_frame_fetches_once_witness :
  let display asinh invert :=
    display_frame stub_log stub_arcsinh online_storage
      (decodes_to sample_frame) bz2_identity 6122 1 13 "r" asinh invert
      default_sas in
  let after := snd (display false true fresh_process) in
  (exists d, display false true fresh_process = (Returns d, after)
             /\ shown d = [[0; 1]; [2; 3]]%float
             /\ frame_title d = "frame-r-006122-1-0013.fits")
  /\ requests after = [frame_path default_sas 6122 1 "r" 13]
  /\ snd (display true false after) = after
  /\ snd (display true true after) = after.
Proof.
  intros display after.
  assert (H : display false true fresh_process
              = (Returns {| shown := [[0; 1]; [2; 3]]%float; cmap := "gray";
                            clim := (0, 1)%float;
                            frame_title := "frame-r-006122-1-0013.fits" |},
                 after)).
  { vm_compute. reflexivity. }
  split; [eexists; split; [exact H | split; reflexivity]|].
  split; [vm_compute; reflexivity|].
  destruct (display_frame_fetches_once stub_log stub_arcsinh online_storage
              (decodes_to sample_frame) bz2_identity 6122 1 13 "r" false true
              default_sas fresh_process after _ H) as (_ & _ & Hagain).
  split; apply Hagain.
Defined.

Lemma display_frame_unknown_band_witness :
  let fetch := extract_frame online_storage (decodes_to sample_frame)
                 bz2_identity 6122 1 13 "x" default_sas in
  ("x" ∉ ["u"; "g"; "r"; "i"; "z"])
  /\ display_frame stub_log stub_arcsinh online_storage
       (decodes_to sample_frame) bz2_identity 6122 1 13 "x" true false
       default_sas fresh_process
     = (Raises (KeyError "x"), snd (fetch fresh_process))
  /\ requests (snd (fetch fresh_process))
     = [frame_path default_sas 6122 1 "x" 13].
Proof.
  intros fetch.
  assert (Hx : "x" ∉ ["u"; "g"; "r"; "i"; "z"]).
  { rewrite !not_elem_of_cons. repeat split; try discriminate.
    apply not_elem_of_nil. }
  split; [exact Hx|].
  assert (H : fetch fresh_process
              = (Returns (Some [[0; 1]; [2; 3]]%float),
                 snd (fetch fresh_process))).
  { vm_compute. reflexivity. }
  split; [|vm_compute; reflexivity].
  exact (proj1 (display_frame_unknown_band stub_log stub_arcsinh online_storage
                  (decodes_to sample_frame) bz2_identity 6122 1 13 "x" false
                  default_sas fresh_process _ _ Hx H)).
Defined.

Lemma display_frame_title_is_file_name_witness :
  frame_path default_sas 6122 1 "r" 13
  = default_sas +:+ "eboss/photoObj/frames/301/" +:+ "6122" +:+ "/" +:+ "1"
    +:+ "/" +:+ "frame-r-006122-1-0013.fits" +:+ ".bz2".
Proof.
  assert (H : display_frame stub_log stub_arcsinh online_storage
                (decodes_to sample_frame) bz2_identity 6122 1 13 "r"
                false false default_sas fresh_process
              = (Returns {| shown := [[0; 1]; [2; 3]]%float; cmap := "gray_r";
                            clim := (0, 1)%float;
                            frame_title := "frame-r-006122-1-0013.fits" |},
                 snd (display_frame stub_log stub_arcsinh online_storage
                        (decodes_to sample_frame) bz2_identity 6122 1 13 "r"
                        false false default_sas fresh_process))).
  { vm_compute. reflexivity. }
  exact (display_frame_title_is_file_name stub_log stub_arcsinh online_storage
           (decodes_to sample_frame) bz2_identity 6122 1 13 "r" false false
           default_sas fresh_process _ _ H).
Defined.

Lemma dataless_frame_failure_is_cached_witness :
  let display asinh :=
    display_frame stub_log stub_arcsinh online_storage
      (decodes_to dataless_frame) bz2_identity 6122 1 13 "r" asinh false
      default_sas in
  let after := snd (display false fresh_process) in
  display false fresh_process = (Raises TypeError, after)
  /\ requests after = [frame_path default_sas 6122 1 "r" 13]
  /\ display true after = (Raises TypeError, after).
Proof.
  intros display after.
  assert (H : extract_frame online_storage (decodes_to dataless_frame)
                bz2_identity 6122 1 13 "r" default_sas fresh_process
              = (Returns None, after)).
  { vm_compute. reflexivity. }
  destruct (dataless_frame_failure_is_cached stub_log stub_arcsinh
              online_storage (decodes_to dataless_frame) bz2_identity
              6122 1 13 "r" false false default_sas fresh_process after H)
    as (Hfirst & _ & Hagain).
  split; [exact Hfirst|]. split; [vm_compute; reflexivity|].
  exact (Hagain true false).
Defined.
